(** * SPARTN frame decoding (go-gnss/spartn): a shallow embedding

    The development follows the two Go source files of the package:
    [frame.go] (the [Frame] record and the three deserialisers) and the
    CRC file (the [MessageCRCType] selector, [CalculateCRC] and
    [DeserializeMessageCRC]).

    Conventions.
    - A Go [byte] is a [Byte.byte]; [u8] gives its value as a [Z] in
      [0, 256).  The fixed-width unsigned integers of Go are [Z]s with the
      wrap-around of every shift written out.
    - Go gives [<<], [>>] and [&] the same precedence and associates them to
      the left, so [a << 9 & b << 1 & c >> 7] is
      [((((a << 9) & b) << 1) & c) >> 7]; the definitions below are
      parenthesised that way.
    - A [*bufio.Reader] is modelled by the list of bytes it has not yet
      delivered ([Reader]).  This is the reader over an in-memory source
      whose remaining content is handed over by one fill of the buffer, so a
      slice returned by [Peek] keeps its content until the call returns. *)

From Stdlib Require Import String.
From Stdlib Require Import ZArith List Bool Lia.
From Stdlib Require Import Strings.Byte.
Import ListNotations.

Local Open Scope string_scope.
Local Open Scope list_scope.
Local Open Scope Z_scope.

(** ** Fixed-width unsigned integers *)

Module UInt.

(** Value of a byte as an integer in [0, 256). *)
Definition u8 (b : byte) : Z := Z.of_N (Byte.to_N b).

(** Conversion to a [w]-bit unsigned integer ([uint8(x)], [uint32(x)]). *)
Definition wrap (w : Z) (x : Z) : Z := x mod 2 ^ w.

(** [x << n] on [w]-bit unsigned operands. *)
Definition shl (w : Z) (x n : Z) : Z := wrap w (Z.shiftl x n).

(** [x >> n] on unsigned operands. *)
Definition shr (x n : Z) : Z := Z.shiftr x n.

(** The byte whose value is [z mod 256]. *)
Definition byte_of_Z (z : Z) : byte :=
  match Byte.of_N (Z.to_N (z mod 256)) with
  | Some b => b
  | None => x00
  end.

End UInt.
Import UInt.

(** ** The CRC library

    [github.com/snksoft/crc] is an external dependency of the package. *)

Module crc.

Record Parameters : Type := mkParameters {
  Width : Z;
  Polynomial : Z;
  Init : Z;
  FinalXor : Z
}.

(** One message bit, most significant first, on the 64-bit register. *)
Definition step (p : Parameters) (cur : Z) (b : bool) : Z :=
  let top := Z.testbit cur (Width p - 1) in
  let cur' := wrap 64 (Z.shiftl cur 1) in
  if xorb top b then Z.lxor cur' (Polynomial p) else cur'.

(** The eight bits of a byte, most significant first. *)
Definition bits_of_byte (x : byte) : list bool :=
  map (fun j => Z.testbit (u8 x) j) [7; 6; 5; 4; 3; 2; 1; 0].

Definition update (p : Parameters) (cur : Z) (data : list byte) : Z :=
  fold_left (fun c x => fold_left (step p) (bits_of_byte x) c) data cur.

(** Modelled from the spec: the checksum computed by a [crc.Hash] built
    from [Parameters] with both reflection flags off (section 4.1: width,
    polynomial, initial value and final xor, not reflected); the library
    itself is not part of the sources.  Bit by bit, most significant bit
    of each byte first, masked to [Width] bits at the end. *)
Definition CalculateCRC (p : Parameters) (data : list byte) : Z :=
  Z.land (Z.lxor (update p (Init p) data) (FinalXor p))
         (2 ^ Width p - 1).

End crc.

(** ** Errors *)

(** The two error values the package produces or passes on: [io.EOF] from
    the reader and the values made by [errors.New]. *)
Inductive error : Type :=
| io_EOF
| errors_New (msg : string).

(** ** The buffered reader

    Go's [bufio.Reader], as far as the package uses it: [ReadByte], [Peek],
    [Discard] and [Read]. *)

Module bufio.

(** The bytes not yet delivered. *)
Definition Reader : Type := list byte.

Definition ReadByte (r : Reader) : byte * option error * Reader :=
  match r with
  | [] => (x00, Some io_EOF, [])
  | c :: r' => (c, None, r')
  end.

(** [Peek] never moves the read position; short of [n] bytes it returns
    what there is together with the error. *)
Definition Peek (n : nat) (r : Reader) : list byte * option error :=
  if (n <=? length r)%nat then (firstn n r, None) else (r, Some io_EOF).

Definition Discard (n : nat) (r : Reader) : nat * option error * Reader :=
  if (n <=? length r)%nat then (n, None, skipn n r)
  else (length r, Some io_EOF, []).

(** [Read] into a fresh zeroed slice of length [n]: at most one copy out
    of the buffer, so fewer than [n] bytes may be delivered without an
    error; the error comes only when nothing at all is left. *)
Definition Read (n : nat) (r : Reader)
  : list byte * nat * option error * Reader :=
  match n, r with
  | O, _ => ([], O, None, r)
  | _, [] => (repeat x00 n, O, Some io_EOF, [])
  | _, _ =>
      let k := Nat.min n (length r) in
      (firstn k r ++ repeat x00 (n - k), k, None, skipn k r)
  end.

End bufio.

(** ** The CRC file *)

Definition MessageCRCType : Type := Z.

Definition CRC8CCITT : MessageCRCType := 0.
Definition CRC16CCITT : MessageCRCType := 1.
Definition CRC24Radix64 : MessageCRCType := 2.
Definition CRC32CCITT : MessageCRCType := 3.

Definition FrameHash : crc.Parameters :=
  crc.mkParameters 8 0x09 0 0.

Definition CalculateCRC (t : MessageCRCType) (data : list byte)
  : Z * option error :=
  if t =? CRC8CCITT then
    (wrap 32 (crc.CalculateCRC (crc.mkParameters 8 0x07 0 0) data), None)
  else if t =? CRC16CCITT then
    (wrap 32 (crc.CalculateCRC (crc.mkParameters 16 0x1021 0 0) data), None)
  else if t =? CRC24Radix64 then
    (wrap 32 (crc.CalculateCRC (crc.mkParameters 24 0x864CFB 0 0) data), None)
  else if t =? CRC32CCITT then
    (wrap 32 (crc.CalculateCRC
                (crc.mkParameters 32 0x04C11DB7 0xFFFFFFFF 0xFFFFFFFF) data),
     None)
  else (0, Some (errors_New "invalid CRC type")).

(** [b[i]] of a slice, as a 32-bit unsigned integer. *)
Definition at32 (b : list byte) (i : nat) : Z := u8 (nth i b x00).

Definition DeserializeMessageCRC (t : MessageCRCType) (r : bufio.Reader)
  : Z * option error * bufio.Reader :=
  if t =? CRC8CCITT then
    let '(b, err, r) := bufio.ReadByte r in
    (u8 b, err, r)
  else if t =? CRC16CCITT then
    let '(b, _, err, r) := bufio.Read 2 r in
    (Z.land (shl 32 (at32 b 0) 8) (at32 b 1), err, r)
  else if t =? CRC24Radix64 then
    let '(b, _, err, r) := bufio.Read 3 r in
    (Z.land (shl 32 (Z.land (shl 32 (at32 b 0) 16) (at32 b 1)) 8)
            (at32 b 2), err, r)
  else if t =? CRC32CCITT then
    let '(b, _, err, r) := bufio.Read 4 r in
    (Z.land
       (shl 32
          (Z.land
             (shl 32 (Z.land (shl 32 (at32 b 0) 24) (at32 b 1)) 16)
             (at32 b 2)) 8)
       (at32 b 3), err, r)
  else (0, Some (errors_New "invalid CRC Type"), r).

(** ** frame.go *)

Definition FramePreamble : Z := 0x73.

Record Frame : Type := mkFrame {
  Preamble : Z;
  MessageType : Z;
  PayloadLength : Z;
  EAF : bool;
  FrameMessageCRCType : MessageCRCType;
  CRC : Z;
  MessageSubtype : Z;
  TimeTagType : bool;
  TimeTag : Z;
  SolutionID : Z;
  SolutionProcessorID : Z;
  EncryptionID : Z;
  EncryptionSequenceNumber : Z;
  AuthenticationIndicator : Z;
  EmbeddedAuthenticationLength : Z;
  MessagePayload : list byte;
  EmbeddedAuthenticationData : list byte;
  MessageCRC : Z
}.

(** The zero value of [Frame], which [DeserializeFrame] starts from. *)
Definition zeroFrame : Frame :=
  mkFrame 0 0 0 false 0 0 0 false 0 0 0 0 0 0 0 [] [] 0.

(** Assignments to the fields of a frame, one function per group of
    assignments in the source. *)
Definition setPreamble (f : Frame) (v : Z) : Frame :=
  mkFrame v (MessageType f) (PayloadLength f) (EAF f)
    (FrameMessageCRCType f) (CRC f) (MessageSubtype f) (TimeTagType f)
    (TimeTag f) (SolutionID f) (SolutionProcessorID f) (EncryptionID f)
    (EncryptionSequenceNumber f) (AuthenticationIndicator f)
    (EmbeddedAuthenticationLength f) (MessagePayload f)
    (EmbeddedAuthenticationData f) (MessageCRC f).

Definition setFrameStart (f : Frame) (mt pl : Z) (eaf : bool)
    (ct : MessageCRCType) (c : Z) : Frame :=
  mkFrame (Preamble f) mt pl eaf ct c (MessageSubtype f) (TimeTagType f)
    (TimeTag f) (SolutionID f) (SolutionProcessorID f) (EncryptionID f)
    (EncryptionSequenceNumber f) (AuthenticationIndicator f)
    (EmbeddedAuthenticationLength f) (MessagePayload f)
    (EmbeddedAuthenticationData f) (MessageCRC f).

Definition setTimeTagBlock (f : Frame) (st : Z) (ttt : bool) (t : Z)
  : Frame :=
  mkFrame (Preamble f) (MessageType f) (PayloadLength f) (EAF f)
    (FrameMessageCRCType f) (CRC f) st ttt t (SolutionID f)
    (SolutionProcessorID f) (EncryptionID f) (EncryptionSequenceNumber f)
    (AuthenticationIndicator f) (EmbeddedAuthenticationLength f)
    (MessagePayload f) (EmbeddedAuthenticationData f) (MessageCRC f).

Definition setSolutionBlock (f : Frame) (sid spid eid esn ai eal : Z)
  : Frame :=
  mkFrame (Preamble f) (MessageType f) (PayloadLength f) (EAF f)
    (FrameMessageCRCType f) (CRC f) (MessageSubtype f) (TimeTagType f)
    (TimeTag f) sid spid eid esn ai eal (MessagePayload f)
    (EmbeddedAuthenticationData f) (MessageCRC f).

Definition setMessagePayload (f : Frame) (v : list byte) : Frame :=
  mkFrame (Preamble f) (MessageType f) (PayloadLength f) (EAF f)
    (FrameMessageCRCType f) (CRC f) (MessageSubtype f) (TimeTagType f)
    (TimeTag f) (SolutionID f) (SolutionProcessorID f) (EncryptionID f)
    (EncryptionSequenceNumber f) (AuthenticationIndicator f)
    (EmbeddedAuthenticationLength f) v (EmbeddedAuthenticationData f)
    (MessageCRC f).

Definition setEmbeddedAuthenticationData (f : Frame) (v : list byte)
  : Frame :=
  mkFrame (Preamble f) (MessageType f) (PayloadLength f) (EAF f)
    (FrameMessageCRCType f) (CRC f) (MessageSubtype f) (TimeTagType f)
    (TimeTag f) (SolutionID f) (SolutionProcessorID f) (EncryptionID f)
    (EncryptionSequenceNumber f) (AuthenticationIndicator f)
    (EmbeddedAuthenticationLength f) (MessagePayload f) v (MessageCRC f).

Definition setMessageCRC (f : Frame) (v : Z) : Frame :=
  mkFrame (Preamble f) (MessageType f) (PayloadLength f) (EAF f)
    (FrameMessageCRCType f) (CRC f) (MessageSubtype f) (TimeTagType f)
    (TimeTag f) (SolutionID f) (SolutionProcessorID f) (EncryptionID f)
    (EncryptionSequenceNumber f) (AuthenticationIndicator f)
    (EmbeddedAuthenticationLength f) (MessagePayload f)
    (EmbeddedAuthenticationData f) v.

(** [frameHeader[0]&0x01 << 9 & frameHeader[1] << 1 & frameHeader[2] >> 7]
    on [uint16], associated to the left as Go does. *)
Definition payloadLengthBits (h0 h1 h2 : Z) : Z :=
  shr (Z.land (shl 16 (Z.land (shl 16 (Z.land h0 0x01) 9) h1) 1) h2) 7.

(** Result: the peeked header slice, the error, the frame as left behind
    and the reader as left behind. *)
Definition DeserializeFrameStart (r : bufio.Reader) (frame : Frame)
  : list byte * option error * Frame * bufio.Reader :=
  let '(frameHeader, err) := bufio.Peek 3 r in
  match err with
  | Some e => (frameHeader, Some e, frame, r)
  | None =>
      let h0 := u8 (nth 0 frameHeader x00) in
      let h1 := u8 (nth 1 frameHeader x00) in
      let h2 := u8 (nth 2 frameHeader x00) in
      let frame :=
        setFrameStart frame
          (shr h0 1)
          (payloadLengthBits h0 h1 h2)
          (shr (Z.land h2 0x40) 6 =? 0x01)
          (shr (Z.land h2 0x30) 4)
          (Z.land h2 0x0F) in
      if negb (wrap 8 (crc.CalculateCRC FrameHash (firstn 2 frameHeader))
               =? CRC frame)
      then (frameHeader,
            Some (errors_New "frame CRC did not match calculated value"),
            frame, r)
      else
        let '(_, err, r) := bufio.Discard 3 r in
        (frameHeader, err, frame, r)
  end.

(** The first, 16-bit, assembly of [TimeTag] on [uint32]. *)
Definition timeTag16 (p0 p1 p2 : Z) : Z :=
  shr (Z.land (shl 32 (Z.land (shl 32 (Z.land p0 0x07) 13) p1) 5)
              (Z.land p2 0xF8)) 3.

(** The second assembly, taken when [TimeTagType] is set. *)
Definition timeTag32 (t p2 p3 p4 : Z) : Z :=
  shr (Z.land
         (shl 32
            (Z.land
               (shl 32 (Z.land (shl 32 t 16) (Z.land p2 0x07)) 13)
               p3) 5)
         (Z.land p4 0xF8)) 3.

(** [(p[0] & 0x07) << 4 & (p[1] & 0xF0) >> 4] on [uint8]. *)
Definition solutionIDBits (q0 q1 : Z) : Z :=
  shr (Z.land (shl 8 (Z.land q0 0x07) 4) (Z.land q1 0xF0)) 4.

(** [(p[2] & 0x0F) << 4 & (p[3] & 0xC0) >> 6] on [uint8]. *)
Definition encryptionSequenceNumberBits (q2 q3 : Z) : Z :=
  shr (Z.land (shl 8 (Z.land q2 0x0F) 4) (Z.land q3 0xC0)) 6.

(** Result: the parsed bytes, the error, the frame and the reader. *)
Definition DeserializePayloadDescriptionBlock (r : bufio.Reader)
    (frame : Frame) : list byte * option error * Frame * bufio.Reader :=
  let '(payloadDescription, err) := bufio.Peek 8 r in
  match err with
  | Some e => ([], Some e, frame, r)
  | None =>
      let p := fun i => u8 (nth i payloadDescription x00) in
      let ttt := shr (Z.land (p 0%nat) 0x04) 3 =? 0x01 in
      let timeTag := timeTag16 (p 0%nat) (p 1%nat) (p 2%nat) in
      let '(timeTag, parsedBytes, payloadDescription, err, r) :=
        if ttt then
          let '(_, err, r) := bufio.Discard 8 r in
          (timeTag32 timeTag (p 2%nat) (p 3%nat) (p 4%nat),
           payloadDescription, skipn 4 payloadDescription, err, r)
        else
          let '(_, err, r) := bufio.Discard 6 r in
          (timeTag, firstn 6 payloadDescription, skipn 2 payloadDescription,
           err, r) in
      let frame := setTimeTagBlock frame (shr (p 0%nat) 4) ttt timeTag in
      match err with
      | Some e => (parsedBytes, Some e, frame, r)
      | None =>
          let q := fun i => u8 (nth i payloadDescription x00) in
          let frame :=
            setSolutionBlock frame
              (solutionIDBits (q 0%nat) (q 1%nat))
              (Z.land (q 1%nat) 0x0F)
              (shr (Z.land (q 2%nat) 0xF0) 4)
              (encryptionSequenceNumberBits (q 2%nat) (q 3%nat))
              (shr (Z.land (q 3%nat) 0x38) 3)
              (Z.land (q 3%nat) 0x7) in
          (parsedBytes, None, frame, r)
      end
  end.

Definition DeserializeFrame (r : bufio.Reader)
  : Frame * option error * bufio.Reader :=
  let frame := zeroFrame in
  let '(b, err, r) := bufio.ReadByte r in
  let frame := setPreamble frame (u8 b) in
  match err with
  | Some e => (frame, Some e, r)
  | None =>
  if negb (Preamble frame =? FramePreamble)
  then (frame, Some (errors_New "invalid preamble"), r)
  else
  let '(frameHeader, err, frame, r) := DeserializeFrameStart r frame in
  match err with
  | Some e => (frame, Some e, r)
  | None =>
  let '(payloadDescription, err, frame, r) :=
    DeserializePayloadDescriptionBlock r frame in
  match err with
  | Some e => (frame, Some e, r)
  | None =>
  let '(b, _, err, r) := bufio.Read (Z.to_nat (PayloadLength frame)) r in
  let frame := setMessagePayload frame b in
  match err with
  | Some e => (frame, Some e, r)
  | None =>
  let '(b, _, err, r) :=
    bufio.Read (Z.to_nat (EmbeddedAuthenticationLength frame)) r in
  let frame := setEmbeddedAuthenticationData frame b in
  match err with
  | Some e => (frame, Some e, r)
  | None =>
  let '(c, err, r) := DeserializeMessageCRC (FrameMessageCRCType frame) r in
  let frame := setMessageCRC frame c in
  match err with
  | Some e => (frame, Some e, r)
  | None =>
  let '(crc, _) :=
    CalculateCRC (FrameMessageCRCType frame)
      (frameHeader ++ payloadDescription ++
       MessagePayload frame ++ EmbeddedAuthenticationData frame) in
  if negb (crc =? MessageCRC frame)
  then (frame,
        Some (errors_New "message CRC does not match computed value"), r)
  else (frame, None, r)
  end end end end end end.

(** ** Error kinds *)

Inductive ErrorKind : Type :=
| StreamError
| FramingError
| IntegrityError
| ProtocolError.

(** Modelled from the spec: the four failure kinds of section 7, which the
    package itself does not declare; it tells its failures apart only by
    the error value.  A wrong preamble is a framing error, either checksum
    mismatch an integrity error, an unknown checksum selector a protocol
    error; whatever else comes up was passed on from the reader and is a
    stream error. *)
Definition kindOf (e : error) : ErrorKind :=
  match e with
  | io_EOF => StreamError
  | errors_New msg =>
      if String.eqb msg "invalid preamble" then FramingError
      else if String.eqb msg "frame CRC did not match calculated value"
              || String.eqb msg "message CRC does not match computed value"
      then IntegrityError
      else if String.eqb msg "invalid CRC type"
              || String.eqb msg "invalid CRC Type"
      then ProtocolError
      else StreamError
  end.

(** ** The wire layout, as an encoder *)

Module Encoder.

(** The [w] low bits of [v], most significant first. *)
Definition bitsMSB (w : nat) (v : Z) : list bool :=
  map (fun i => Z.testbit v (Z.of_nat i)) (rev (seq 0 w)).

Definition byte_of_bits (b7 b6 b5 b4 b3 b2 b1 b0 : bool) : byte :=
  byte_of_Z
    (fold_left (fun acc (b : bool) => 2 * acc + (if b then 1 else 0))
       [b7; b6; b5; b4; b3; b2; b1; b0] 0).

(** Whole bytes out of a bit string whose length is a multiple of 8. *)
Fixpoint pack (bits : list bool) : list byte :=
  match bits with
  | b7 :: b6 :: b5 :: b4 :: b3 :: b2 :: b1 :: b0 :: rest =>
      byte_of_bits b7 b6 b5 b4 b3 b2 b1 b0 :: pack rest
  | _ => []
  end.

Definition headerBits (f : Frame) (headerCRC : Z) : list bool :=
  bitsMSB 7 (MessageType f) ++ bitsMSB 10 (PayloadLength f) ++
  [EAF f] ++ bitsMSB 2 (FrameMessageCRCType f) ++ bitsMSB 4 headerCRC.

(** The three header bytes; the 4-bit field carries the header checksum
    of the first two. *)
Definition encodeFrameStart (f : Frame) : list byte :=
  let c := crc.CalculateCRC FrameHash (firstn 2 (pack (headerBits f 0))) in
  pack (headerBits f c).

Definition encodePayloadDescriptionBlock (f : Frame) : list byte :=
  pack (bitsMSB 4 (MessageSubtype f) ++ [TimeTagType f] ++
        bitsMSB (if TimeTagType f then 32 else 16) (TimeTag f) ++
        bitsMSB 7 (SolutionID f) ++ bitsMSB 4 (SolutionProcessorID f) ++
        bitsMSB 4 (EncryptionID f) ++
        bitsMSB 6 (EncryptionSequenceNumber f) ++
        bitsMSB 3 (AuthenticationIndicator f) ++
        bitsMSB 3 (EmbeddedAuthenticationLength f)).

(** The trailing checksum, most significant byte first, one to four
    bytes by selector. *)
Definition encodeMessageCRC (t : MessageCRCType) (c : Z) : list byte :=
  pack (bitsMSB (8 * (Z.to_nat t + 1)) c).

(** Modelled from the spec: the encoder paired with the decoder in the
    tests (section 8), of which the repository has no source.  It packs
    the fields in the order and widths of the table of section 3, most
    significant bit first, then the payload, the authentication data and
    the checksum of everything after the preamble. *)
Definition encodeFrame (f : Frame) : list byte :=
  let body :=
    encodeFrameStart f ++ encodePayloadDescriptionBlock f ++
    MessagePayload f ++ EmbeddedAuthenticationData f in
  byte_of_Z FramePreamble :: body ++
  encodeMessageCRC (FrameMessageCRCType f)
    (fst (CalculateCRC (FrameMessageCRCType f) body)).

End Encoder.

(** Byte strings written as lists of numbers. *)
Definition B (l : list Z) : list byte := map byte_of_Z l.

(** The integers a byte can denote. *)
Definition range256 : list Z := map Z.of_nat (seq 0 256).

(** The selectors with a checksum algorithm behind them. *)
Definition recognized (t : MessageCRCType) : Prop := In t [0; 1; 2; 3].

(** Facts about the frame [DeserializeFrame] hands back, on every path. *)
Record returnedFrameFacts (fr : Frame) (err : option error) : Prop := {
  rf_PayloadLength : PayloadLength fr = 0;
  rf_MessagePayload : MessagePayload fr = [];
  rf_TimeTag : TimeTag fr = 0;
  rf_TimeTagType : TimeTagType fr = false;
  rf_selector : recognized (FrameMessageCRCType fr);
  rf_not_protocol : forall e, err = Some e -> kindOf e <> ProtocolError
}.

(** ** Streams and frames used as examples *)

(** The reference input of the published check values: the ASCII digits
    1 to 9. *)
Definition checkInput : list byte :=
  B [0x31; 0x32; 0x33; 0x34; 0x35; 0x36; 0x37; 0x38; 0x39].

(** A stream whose header checksum agrees, and one whose does not. *)
Definition agreeingStart : bufio.Reader := B [0; 0; 0; 0xAA].
Definition differingStart : bufio.Reader := B [0; 0; 1; 0xAA].

(** A frame with a one-byte payload and everything else zero. *)
Definition payloadFrame : Frame :=
  mkFrame 0x73 0 1 false CRC8CCITT 0 0 false 0 0 0 0 0 0 0 (B [0xAA]) [] 0xE0.

(** The minimal frame: all fields zero, no payload, no authentication
    data, the 8-bit checksum. *)
Definition minimalFields : Frame :=
  mkFrame 0x73 0 0 false CRC8CCITT 0 0 false 0 0 0 0 0 0 0 [] [] 0.

Definition minimalFrame : bufio.Reader :=
  B [0x73; 0; 0; 0; 0; 0; 0; 0; 0; 0; 0].

(** The minimal frame with a wrong trailing checksum. *)
Definition corruptedMinimalFrame : bufio.Reader :=
  B [0x73; 0; 0; 0; 0; 0; 0; 0; 0; 0; 0x01].

(** A frame with the 16-bit checksum whose body has checksum 0, closed by
    the two bytes [0xDE 0xAD]. *)
Definition corruptedCRC16Frame : bufio.Reader :=
  B [0x73; 0; 0; 0x10; 0; 0; 0; 0x1B; 0xA7; 0; 0xDE; 0xAD].

(** A payload description block with bits 3 and 2 of its first byte set,
    followed by one more byte. *)
Definition flaggedBlock : bufio.Reader :=
  B [0x0C; 1; 2; 3; 4; 5; 6; 7; 8].

(** An empty frame with the 24-bit checksum. *)
Definition crc24Fields : Frame :=
  mkFrame 0x73 0 0 false CRC24Radix64 0 0 false 0 0 0 0 0 0 0 [] [] 0xED4E97.

(** A block whose [SolutionID] and [EncryptionSequenceNumber] fragments
    overlap. *)
Definition overlappingBlock : bufio.Reader :=
  B [0; 0; 0x07; 0xF0; 0x0F; 0xC0; 0; 0].

(** ** Field widths *)

(** The width each field has in the declaration of [Frame] (the comment
    behind the field), as a bound on its value; a [bool] and a slice have
    nothing to bound. *)
Record fieldsFitWidths (f : Frame) : Prop := {
  fw_Preamble : 0 <= Preamble f < 2 ^ 8;
  fw_MessageType : 0 <= MessageType f < 2 ^ 7;
  fw_PayloadLength : 0 <= PayloadLength f < 2 ^ 10;
  fw_MessageCRCType : 0 <= FrameMessageCRCType f < 2 ^ 2;
  fw_CRC : 0 <= CRC f < 2 ^ 4;
  fw_MessageSubtype : 0 <= MessageSubtype f < 2 ^ 4;
  fw_TimeTag : 0 <= TimeTag f < 2 ^ 32;
  fw_SolutionID : 0 <= SolutionID f < 2 ^ 7;
  fw_SolutionProcessorID : 0 <= SolutionProcessorID f < 2 ^ 4;
  fw_EncryptionID : 0 <= EncryptionID f < 2 ^ 4;
  fw_EncryptionSequenceNumber : 0 <= EncryptionSequenceNumber f < 2 ^ 6;
  fw_AuthenticationIndicator : 0 <= AuthenticationIndicator f < 2 ^ 3;
  fw_EmbeddedAuthenticationLength :
    0 <= EmbeddedAuthenticationLength f < 2 ^ 3;
  fw_MessageCRC : 0 <= MessageCRC f < 2 ^ 32
}.

(** The frame as it stands once the header and the payload description
    block have been parsed: the header bytes [a], [c] and the block bytes
    [p0], [p2] to [p5] are all it depends on. *)
Definition parsedFields (a c p0 p2 p3 p4 p5 : byte) : Frame :=
  mkFrame 0x73 (shr (u8 a) 1) 0 (shr (Z.land (u8 c) 0x40) 6 =? 0x01)
    (shr (Z.land (u8 c) 0x30) 4) (Z.land (u8 c) 0x0F)
    (shr (u8 p0) 4) false 0
    (Z.land (Z.land (u8 p2) 0x07) (shr (u8 p3) 4))
    (Z.land (u8 p3) 0x0F)
    (shr (Z.land (u8 p4) 0xF0) 4)
    (Z.land (Z.land (shr (u8 p4) 2) 0x03) (shr (u8 p5) 6))
    (shr (Z.land (u8 p5) 0x38) 3)
    (Z.land (u8 p5) 0x7)
    [] [] 0.

(** The frame as it stands once the header alone has been parsed. *)
Definition headerFields (a c : byte) : Frame :=
  setFrameStart (setPreamble zeroFrame FramePreamble)
    (shr (u8 a) 1) 0 (shr (Z.land (u8 c) 0x40) 6 =? 0x01)
    (shr (Z.land (u8 c) 0x30) 4) (Z.land (u8 c) 0x0F).

(** The shapes a stream can have, by how far [DeserializeFrame] gets. *)
Inductive streamShape : list byte -> Prop :=
| shapeEmpty : streamShape []
| shapeBadPreamble (b : byte) (rest : list byte) :
    u8 b <> FramePreamble -> streamShape (b :: rest)
| shapeShortHeader (rest : list byte) :
    (length rest < 3)%nat -> streamShape (x73 :: rest)
| shapeBadHeader (a b c : byte) (rest : list byte) :
    wrap 8 (crc.CalculateCRC FrameHash [a; b]) <> Z.land (u8 c) 0x0F ->
    streamShape (x73 :: a :: b :: c :: rest)
| shapeShortBlock (a b c : byte) (rest : list byte) :
    wrap 8 (crc.CalculateCRC FrameHash [a; b]) = Z.land (u8 c) 0x0F ->
    (length rest < 8)%nat ->
    streamShape (x73 :: a :: b :: c :: rest)
| shapeBody (a b c p0 p1 p2 p3 p4 p5 p6 p7 : byte) (rest : list byte) :
    wrap 8 (crc.CalculateCRC FrameHash [a; b]) = Z.land (u8 c) 0x0F ->
    streamShape
      (x73 :: a :: b :: c ::
       p0 :: p1 :: p2 :: p3 :: p4 :: p5 :: p6 :: p7 :: rest).


(** The ways a call of [DeserializeFrame] ends: the stream, the frame
    returned, the error and what is left of the stream. *)
Inductive outcome :
  list byte -> Frame -> option error -> list byte -> Prop :=
| endOfStream :
    outcome [] zeroFrame (Some io_EOF) []
| invalidPreamble (b : byte) (rest : list byte) :
    u8 b <> FramePreamble ->
    outcome (b :: rest) (setPreamble zeroFrame (u8 b))
      (Some (errors_New "invalid preamble")) rest
| headerCutShort (rest : list byte) :
    (length rest < 3)%nat ->
    outcome (x73 :: rest) (setPreamble zeroFrame FramePreamble)
      (Some io_EOF) rest
| headerRejected (a b c : byte) (rest : list byte) :
    wrap 8 (crc.CalculateCRC FrameHash [a; b]) <> Z.land (u8 c) 0x0F ->
    outcome (x73 :: a :: b :: c :: rest) (headerFields a c)
      (Some (errors_New "frame CRC did not match calculated value"))
      (a :: b :: c :: rest)
| blockCutShort (a b c : byte) (rest : list byte) :
    wrap 8 (crc.CalculateCRC FrameHash [a; b]) = Z.land (u8 c) 0x0F ->
    (length rest < 8)%nat ->
    outcome (x73 :: a :: b :: c :: rest) (headerFields a c)
      (Some io_EOF) rest
| checksumCutShort (a b c p0 p1 p2 p3 p4 p5 : byte)
    (tail auth : list byte) (n : nat) :
    wrap 8 (crc.CalculateCRC FrameHash [a; b]) = Z.land (u8 c) 0x0F ->
    (2 <= length tail)%nat ->
    n = Z.to_nat (Z.land (u8 p5) 0x7) ->
    auth = firstn n tail ++ repeat x00 (n - length tail) ->
    skipn n tail = [] ->
    outcome
      (x73 :: a :: b :: c :: p0 :: p1 :: p2 :: p3 :: p4 :: p5 :: tail)
      (setMessageCRC
         (setEmbeddedAuthenticationData
            (parsedFields a c p0 p2 p3 p4 p5) auth) 0)
      (Some io_EOF) []
| checksumCompared (a b c p0 p1 p2 p3 p4 p5 x : byte)
    (tail auth l : list byte) (n : nat) (t v : Z) :
    wrap 8 (crc.CalculateCRC FrameHash [a; b]) = Z.land (u8 c) 0x0F ->
    (2 <= length tail)%nat ->
    n = Z.to_nat (Z.land (u8 p5) 0x7) ->
    t = shr (Z.land (u8 c) 0x30) 4 ->
    auth = firstn n tail ++ repeat x00 (n - length tail) ->
    skipn n tail = x :: l ->
    v = (if t =? CRC8CCITT then u8 x else 0) ->
    outcome
      (x73 :: a :: b :: c :: p0 :: p1 :: p2 :: p3 :: p4 :: p5 :: tail)
      (setMessageCRC
         (setEmbeddedAuthenticationData
            (parsedFields a c p0 p2 p3 p4 p5) auth) v)
      (if fst (CalculateCRC t
                 (a :: b :: c :: p0 :: p1 :: p2 :: p3 :: p4 :: p5 :: auth))
          =? v
       then None
       else Some (errors_New "message CRC does not match computed value"))
      (skipn (n + (Z.to_nat t + 1)) tail).

(** A frame with every field set, two bytes of authentication data and
    the 16-bit checksum. *)
Definition sampleFields : Frame :=
  mkFrame 0x73 5 0 true CRC16CCITT 0 3 false 0x1234 0x55 9 6 0x2A 5 2
    [] (B [1; 2]) 0.

(** A check on both values of a [bool]. *)
Definition allb (f : bool -> bool) : bool := f true && f false.

(** * Properties *)

(** ** Bytes and bit fragments *)

Lemma u8_range (b : byte) : 0 <= u8 b < 256.
Proof.
  unfold u8. pose proof (Byte.to_N_bounded b). lia.
Qed.

Lemma in_range256 (x : Z) : 0 <= x < 256 -> In x range256.
Proof.
  intros Hx. unfold range256.
  replace x with (Z.of_nat (Z.to_nat x)) by lia.
  apply in_map, in_seq. lia.
Qed.

(** A decidable property checked on all 256 values holds of every byte. *)
Lemma forall_byte (P : Z -> bool) :
  forallb P range256 = true -> forall b, P (u8 b) = true.
Proof.
  intros H b. rewrite forallb_forall in H.
  apply H, in_range256, u8_range.
Qed.

Lemma forall_byte2 (P : Z -> Z -> bool) :
  forallb (fun x => forallb (P x) range256) range256 = true ->
  forall a b, P (u8 a) (u8 b) = true.
Proof.
  intros H a b.
  apply (forall_byte (P (u8 a))).
  apply (forall_byte (fun x => forallb (P x) range256) H a).
Qed.

(** The fragments of [PayloadLength] and [TimeTag] never overlap, so their
    conjunction is empty whatever the bytes. *)
Lemma payloadLengthBits_zero (a b c : byte) :
  payloadLengthBits (u8 a) (u8 b) (u8 c) = 0.
Proof.
  unfold payloadLengthBits.
  assert (H : Z.land (shl 16 (Z.land (u8 a) 0x01) 9) (u8 b) = 0).
  { apply Z.eqb_eq.
    apply (forall_byte2
             (fun x y => Z.land (shl 16 (Z.land x 0x01) 9) y =? 0)).
    vm_compute. reflexivity. }
  rewrite H. reflexivity.
Qed.

Lemma timeTag16_zero (a b c : byte) : timeTag16 (u8 a) (u8 b) (u8 c) = 0.
Proof.
  unfold timeTag16.
  assert (H : Z.land (shl 32 (Z.land (u8 a) 0x07) 13) (u8 b) = 0).
  { apply Z.eqb_eq.
    apply (forall_byte2
             (fun x y => Z.land (shl 32 (Z.land x 0x07) 13) y =? 0)).
    vm_compute. reflexivity. }
  rewrite H. reflexivity.
Qed.

(** Mask [0x04] shifted right by three places leaves nothing. *)
Lemma timeTagType_false (a : byte) :
  (shr (Z.land (u8 a) 0x04) 3 =? 0x01) = false.
Proof.
  apply negb_true_iff.
  apply (forall_byte (fun x => negb (shr (Z.land x 0x04) 3 =? 0x01))).
  vm_compute. reflexivity.
Qed.

(** The two fragments of [SolutionID] do overlap, in bits 4 to 6. *)
Lemma solutionIDBits_spec (a b : byte) :
  solutionIDBits (u8 a) (u8 b) = Z.land (Z.land (u8 a) 0x07) (shr (u8 b) 4).
Proof.
  apply Z.eqb_eq.
  apply (forall_byte2
           (fun x y => solutionIDBits x y =? Z.land (Z.land x 0x07) (shr y 4))).
  vm_compute. reflexivity.
Qed.

(** So do those of [EncryptionSequenceNumber], in bits 6 and 7. *)
Lemma encryptionSequenceNumberBits_spec (a b : byte) :
  encryptionSequenceNumberBits (u8 a) (u8 b)
  = Z.land (Z.land (shr (u8 a) 2) 0x03) (shr (u8 b) 6).
Proof.
  apply Z.eqb_eq.
  apply (forall_byte2
           (fun x y => encryptionSequenceNumberBits x y
                       =? Z.land (Z.land (shr x 2) 0x03) (shr y 6))).
  vm_compute. reflexivity.
Qed.

Lemma messageCRCType_range (a : byte) :
  0 <= shr (Z.land (u8 a) 0x30) 4 <= 3.
Proof.
  assert (H : ((0 <=? shr (Z.land (u8 a) 0x30) 4)
               && (shr (Z.land (u8 a) 0x30) 4 <=? 3))%bool = true).
  { apply (forall_byte
             (fun x => ((0 <=? shr (Z.land x 0x30) 4)
                        && (shr (Z.land x 0x30) 4 <=? 3))%bool)).
    vm_compute. reflexivity. }
  apply andb_true_iff in H. destruct H as [H1 H2].
  split; [apply Z.leb_le, H1 | apply Z.leb_le, H2].
Qed.

(** ** The checksum reader *)

Lemma recognized_cases (t : MessageCRCType) :
  recognized t <-> t = 0 \/ t = 1 \/ t = 2 \/ t = 3.
Proof.
  unfold recognized. simpl. intuition congruence.
Qed.

(** C8.  A selector outside 0..3 makes both [DeserializeMessageCRC] and
    [CalculateCRC] fail with their invalid-type error, a protocol error;
    the reader is handed back as it was, and the value returned is the zero
    value whatever the data, no checksum having been computed. *)
Theorem unrecognized_selector_rejected
    (t : MessageCRCType) (r : bufio.Reader) (data : list byte) :
  ~ recognized t ->
  DeserializeMessageCRC t r = (0, Some (errors_New "invalid CRC Type"), r) /\
  CalculateCRC t data = (0, Some (errors_New "invalid CRC type")) /\
  kindOf (errors_New "invalid CRC Type") = ProtocolError /\
  kindOf (errors_New "invalid CRC type") = ProtocolError.
Proof.
  intros Ht. rewrite recognized_cases in Ht.
  assert (H0 : (t =? CRC8CCITT) = false) by (apply Z.eqb_neq; intuition).
  assert (H1 : (t =? CRC16CCITT) = false) by (apply Z.eqb_neq; intuition).
  assert (H2 : (t =? CRC24Radix64) = false) by (apply Z.eqb_neq; intuition).
  assert (H3 : (t =? CRC32CCITT) = false) by (apply Z.eqb_neq; intuition).
  unfold DeserializeMessageCRC, CalculateCRC.
  rewrite H0, H1, H2, H3. repeat split.
Qed.

Lemma unrecognized_selector_rejected_witness :
  ~ recognized 4 /\
  DeserializeMessageCRC 4 (B [0x12; 0x34])
  = (0, Some (errors_New "invalid CRC Type"), B [0x12; 0x34]) /\
  CalculateCRC 4 (B [0x12; 0x34]) = (0, Some (errors_New "invalid CRC type")).
Proof.
  assert (H : ~ recognized 4).
  { unfold recognized. simpl. lia. }
  split; [exact H |].
  destruct (unrecognized_selector_rejected 4 (B [0x12; 0x34])
              (B [0x12; 0x34]) H) as [Hd [Hc _]].
  split; [exact Hd | exact Hc].
Defined.

(** A recognized selector never reaches either default branch. *)
Lemma recognized_CalculateCRC (t : MessageCRCType) (data : list byte) :
  recognized t -> snd (CalculateCRC t data) = None.
Proof.
  rewrite recognized_cases.
  intros [-> | [-> | [-> | ->]]]; reflexivity.
Qed.

Lemma recognized_DeserializeMessageCRC (t : MessageCRCType)
    (r : bufio.Reader) :
  recognized t ->
  snd (fst (DeserializeMessageCRC t r)) = None \/
  snd (fst (DeserializeMessageCRC t r)) = Some io_EOF.
Proof.
  rewrite recognized_cases.
  intros [-> | [-> | [-> | ->]]]; destruct r as [| c r];
    cbn; auto.
Qed.

(** The conjunction of shifted bytes that stands for the 16-, 24- and
    32-bit checksums is empty. *)
Lemma shifted_and_zero (a b : byte) (n : Z) :
  In n [8; 16; 24] -> Z.land (shl 32 (u8 a) n) (u8 b) = 0.
Proof.
  intros Hn. apply Z.eqb_eq.
  simpl in Hn. destruct Hn as [<- | [<- | [<- | []]]].
  - apply (forall_byte2 (fun x y => Z.land (shl 32 x 8) y =? 0)).
    vm_compute. reflexivity.
  - apply (forall_byte2 (fun x y => Z.land (shl 32 x 16) y =? 0)).
    vm_compute. reflexivity.
  - apply (forall_byte2 (fun x y => Z.land (shl 32 x 24) y =? 0)).
    vm_compute. reflexivity.
Qed.

Lemma DeserializeMessageCRC_wide_zero (t : MessageCRCType)
    (r : bufio.Reader) :
  In t [1; 2; 3] -> fst (fst (DeserializeMessageCRC t r)) = 0.
Proof.
  intros Ht. simpl in Ht. destruct Ht as [<- | [<- | [<- | []]]];
    unfold DeserializeMessageCRC; cbn [Z.eqb CRC8CCITT CRC16CCITT
      CRC24Radix64 CRC32CCITT Pos.eqb];
    match goal with
    | |- context [bufio.Read ?n r] =>
        destruct (bufio.Read n r) as [[[b k] err] r']
    end; cbn [fst];
    unfold at32.
  - apply shifted_and_zero. simpl. auto.
  - rewrite shifted_and_zero by (simpl; auto). reflexivity.
  - rewrite shifted_and_zero by (simpl; auto). reflexivity.
Qed.

(** ** The frame start *)

(** What [DeserializeFrameStart] does once three bytes are there. *)
Lemma DeserializeFrameStart_cons (a b c : byte) (rest : list byte)
    (f : Frame) :
  DeserializeFrameStart (a :: b :: c :: rest) f =
  let frame :=
    setFrameStart f (shr (u8 a) 1) 0 (shr (Z.land (u8 c) 0x40) 6 =? 0x01)
      (shr (Z.land (u8 c) 0x30) 4) (Z.land (u8 c) 0x0F) in
  if wrap 8 (crc.CalculateCRC FrameHash [a; b]) =? Z.land (u8 c) 0x0F
  then ([a; b; c], None, frame, rest)
  else ([a; b; c],
        Some (errors_New "frame CRC did not match calculated value"),
        frame, a :: b :: c :: rest).
Proof.
  unfold DeserializeFrameStart.
  cbn [bufio.Peek length Nat.leb firstn nth].
  rewrite payloadLengthBits_zero.
  cbn [CRC setFrameStart].
  destruct (wrap 8 (crc.CalculateCRC FrameHash [a; b])
            =? Z.land (u8 c) 0x0F); reflexivity.
Qed.

(** With fewer than three bytes nothing is touched. *)
Lemma DeserializeFrameStart_short (r : bufio.Reader) (f : Frame) :
  (length r < 3)%nat ->
  DeserializeFrameStart r f = (r, Some io_EOF, f, r).
Proof.
  intros H. unfold DeserializeFrameStart, bufio.Peek.
  destruct (3 <=? length r)%nat eqn:E; [| reflexivity].
  apply Nat.leb_le in E. lia.
Qed.

Lemma three_or_short (r : list byte) :
  (length r < 3)%nat \/
  exists a b c rest, r = a :: b :: c :: rest.
Proof.
  destruct r as [| a [| b [| c rest]]]; cbn; try (left; lia).
  right. now exists a, b, c, rest.
Qed.

(** C5.  With three bytes available, a header checksum (CRC-8, polynomial
    0x09, over the first two bytes) different from the embedded 4-bit field
    makes [DeserializeFrameStart] fail with an integrity error and leaves
    the reader where it was, the same three bytes still to be read; when
    the two agree, exactly three bytes are consumed and they are the slice
    returned. *)
Theorem DeserializeFrameStart_resynchronises
    (r : bufio.Reader) (frame : Frame) :
  (3 <= length r)%nat ->
  let computed := wrap 8 (crc.CalculateCRC FrameHash (firstn 2 r)) in
  let embedded := Z.land (u8 (nth 2 r x00)) 0x0F in
  let '(frameHeader, err, _, r') := DeserializeFrameStart r frame in
  (computed <> embedded ->
   err = Some (errors_New "frame CRC did not match calculated value") /\
   kindOf (errors_New "frame CRC did not match calculated value")
   = IntegrityError /\
   r' = r /\ bufio.Peek 3 r' = (firstn 3 r, None)) /\
  (computed = embedded ->
   err = None /\ frameHeader = firstn 3 r /\
   r = frameHeader ++ r' /\ length frameHeader = 3%nat).
Proof.
  intros Hlen.
  destruct (three_or_short r) as [Hs | (a & b & c & rest & ->)]; [lia |].
  cbn zeta. rewrite DeserializeFrameStart_cons.
  cbn [firstn nth]. cbn zeta.
  destruct (wrap 8 (crc.CalculateCRC FrameHash [a; b])
            =? Z.land (u8 c) 0x0F) eqn:E.
  - apply Z.eqb_eq in E. split; [intros Hne; contradiction |].
    intros _. repeat split.
  - apply Z.eqb_neq in E. split; [| intros He; contradiction].
    intros _. repeat split.
Qed.

Lemma DeserializeFrameStart_resynchronises_witness :
  (3 <= length agreeingStart)%nat /\
  (3 <= length differingStart)%nat /\
  (let '(frameHeader, err, _, r') :=
     DeserializeFrameStart agreeingStart zeroFrame in
   err = None /\ frameHeader = B [0; 0; 0] /\ r' = B [0xAA]) /\
  (let '(_, err, _, r') :=
     DeserializeFrameStart differingStart zeroFrame in
   err = Some (errors_New "frame CRC did not match calculated value") /\
   r' = differingStart).
Proof.
  assert (H1 : (3 <= length agreeingStart)%nat) by (simpl; lia).
  assert (H2 : (3 <= length differingStart)%nat) by (simpl; lia).
  split; [exact H1 |]. split; [exact H2 |].
  pose proof (DeserializeFrameStart_resynchronises _ zeroFrame H1) as M.
  pose proof (DeserializeFrameStart_resynchronises _ zeroFrame H2) as N.
  cbn zeta in M, N.
  destruct (DeserializeFrameStart agreeingStart zeroFrame)
    as [[[h e] f] r'].
  destruct (DeserializeFrameStart differingStart zeroFrame)
    as [[[h2 e2] f2] r2].
  destruct M as [_ M]. destruct N as [N _].
  split.
  - destruct M as (Me & Mh & Mr & Ml); [vm_compute; reflexivity |].
    subst h. split; [exact Me |]. split; [reflexivity |].
    change (firstn 3 agreeingStart ++ B [0xAA]
            = firstn 3 agreeingStart ++ r') in Mr.
    apply app_inv_head in Mr. symmetry. exact Mr.
  - destruct N as (Ne & _ & Nr & _); [vm_compute; discriminate |].
    split; assumption.
Defined.

(** ** The payload description block *)

(** What [DeserializePayloadDescriptionBlock] does once eight bytes are
    there: the flag is never set, so it is always the six-byte branch. *)
Lemma DeserializePayloadDescriptionBlock_cons
    (p0 p1 p2 p3 p4 p5 p6 p7 : byte) (rest : list byte) (f : Frame) :
  DeserializePayloadDescriptionBlock
    (p0 :: p1 :: p2 :: p3 :: p4 :: p5 :: p6 :: p7 :: rest) f =
  ([p0; p1; p2; p3; p4; p5], None,
   setSolutionBlock
     (setTimeTagBlock f (shr (u8 p0) 4) false 0)
     (Z.land (Z.land (u8 p2) 0x07) (shr (u8 p3) 4))
     (Z.land (u8 p3) 0x0F)
     (shr (Z.land (u8 p4) 0xF0) 4)
     (Z.land (Z.land (shr (u8 p4) 2) 0x03) (shr (u8 p5) 6))
     (shr (Z.land (u8 p5) 0x38) 3)
     (Z.land (u8 p5) 0x7),
   p6 :: p7 :: rest).
Proof.
  unfold DeserializePayloadDescriptionBlock.
  cbn [bufio.Peek length Nat.leb firstn nth].
  rewrite timeTagType_false, timeTag16_zero.
  cbn [bufio.Discard length Nat.leb skipn firstn nth].
  rewrite solutionIDBits_spec, encryptionSequenceNumberBits_spec.
  reflexivity.
Qed.

Lemma DeserializePayloadDescriptionBlock_short
    (r : bufio.Reader) (f : Frame) :
  (length r < 8)%nat ->
  DeserializePayloadDescriptionBlock r f = ([], Some io_EOF, f, r).
Proof.
  intros H. unfold DeserializePayloadDescriptionBlock, bufio.Peek.
  destruct (8 <=? length r)%nat eqn:E; [| reflexivity].
  apply Nat.leb_le in E. lia.
Qed.

Lemma eight_or_short (r : list byte) :
  (length r < 8)%nat \/
  exists p0 p1 p2 p3 p4 p5 p6 p7 rest,
    r = p0 :: p1 :: p2 :: p3 :: p4 :: p5 :: p6 :: p7 :: rest.
Proof.
  destruct r as [| p0 [| p1 [| p2 [| p3 [| p4 [| p5 [| p6 [| p7 rest]]]]]]]];
    cbn; try (left; lia).
  right. now exists p0, p1, p2, p3, p4, p5, p6, p7, rest.
Qed.

(** The block parser consumes six bytes or none. *)
Lemma DeserializePayloadDescriptionBlock_consumes
    (r : bufio.Reader) (f : Frame) :
  let '(parsedBytes, err, f', r') :=
    DeserializePayloadDescriptionBlock r f in
  (err = Some io_EOF /\ r' = r /\ f' = f) \/
  (err = None /\ r = parsedBytes ++ r' /\ length parsedBytes = 6%nat /\
   TimeTagType f' = false /\ TimeTag f' = 0).
Proof.
  destruct (eight_or_short r)
    as [Hs | (p0 & p1 & p2 & p3 & p4 & p5 & p6 & p7 & rest & ->)].
  - rewrite DeserializePayloadDescriptionBlock_short by exact Hs. auto.
  - rewrite DeserializePayloadDescriptionBlock_cons. right.
    repeat split.
Qed.

(** ** The whole frame *)

Lemma recognized_two_bits (c : byte) :
  recognized (shr (Z.land (u8 c) 0x30) 4).
Proof.
  apply recognized_cases.
  pose proof (messageCRCType_range c). lia.
Qed.

(** [Read] fails only on an exhausted reader. *)
Lemma Read_nonempty (n : nat) (x : byte) (l : list byte) :
  snd (fst (bufio.Read n (x :: l))) = None.
Proof.
  destruct n; reflexivity.
Qed.

(** Projections of a frame built by the setters. *)
Ltac frame_cbn :=
  cbn [Preamble MessageType PayloadLength EAF FrameMessageCRCType CRC
       MessageSubtype TimeTagType TimeTag SolutionID SolutionProcessorID
       EncryptionID EncryptionSequenceNumber AuthenticationIndicator
       EmbeddedAuthenticationLength MessagePayload
       EmbeddedAuthenticationData MessageCRC
       setPreamble setFrameStart setTimeTagBlock setSolutionBlock
       setMessagePayload setEmbeddedAuthenticationData setMessageCRC].

Ltac returned_facts Hsel :=
  cbv beta iota zeta;
  split; try reflexivity;
  [ first [exact Hsel | cbn; auto]
  | let e := fresh "e" in
    intros e; first [discriminate | intros [= <-]; discriminate] ].

Lemma DeserializeFrame_facts (r : bufio.Reader) :
  let '(fr, err, _) := DeserializeFrame r in returnedFrameFacts fr err.
Proof.
  assert (H0 : recognized 0) by (cbn; auto).
  unfold DeserializeFrame.
  destruct r as [| b r]; cbn [bufio.ReadByte].
  { returned_facts H0. }
  destruct (negb (Preamble (setPreamble zeroFrame (u8 b)) =? FramePreamble)).
  { returned_facts H0. }
  destruct (three_or_short r) as [Hs | (a & h1 & c & r1 & ->)].
  { rewrite DeserializeFrameStart_short by exact Hs. returned_facts H0. }
  rewrite DeserializeFrameStart_cons. cbv zeta.
  pose proof (recognized_two_bits c) as Hsel.
  destruct (wrap 8 (crc.CalculateCRC FrameHash [a; h1])
            =? Z.land (u8 c) 0x0F).
  2:{ returned_facts Hsel. }
  destruct (eight_or_short r1)
    as [Hs | (p0 & p1 & p2 & p3 & p4 & p5 & p6 & p7 & r2 & ->)].
  { rewrite DeserializePayloadDescriptionBlock_short by exact Hs.
    returned_facts Hsel. }
  rewrite DeserializePayloadDescriptionBlock_cons.
  frame_cbn. cbn [Z.to_nat bufio.Read]. frame_cbn.
  pose proof (Read_nonempty (Z.to_nat (Z.land (u8 p5) 0x7)) p6 (p7 :: r2))
    as Hread.
  destruct (bufio.Read (Z.to_nat (Z.land (u8 p5) 0x7)) (p6 :: p7 :: r2))
    as [[[auth k] err] r3].
  cbn [fst snd] in Hread. subst err.
  frame_cbn.
  pose proof (recognized_DeserializeMessageCRC _ r3 Hsel) as Herr.
  destruct (DeserializeMessageCRC (shr (Z.land (u8 c) 0x30) 4) r3)
    as [[v err] r4].
  cbn [fst snd] in Herr.
  destruct err as [e |].
  { destruct Herr as [Herr | Herr]; [discriminate |].
    injection Herr as ->. returned_facts Hsel. }
  frame_cbn.
  destruct (CalculateCRC _ _) as [cv ce].
  destruct (negb (cv =? v)); returned_facts Hsel.
Qed.

(** C10.  The selector [DeserializeFrameStart] stores comes out of a 2-bit
    field and is one of 0, 1, 2, 3 for every stream; so the frame handled
    by [DeserializeFrame] always carries a recognized selector, with which
    [CalculateCRC] returns a nil error and [DeserializeMessageCRC] never
    its invalid-type error, and no call of [DeserializeFrame] ends in a
    protocol error. *)
Theorem selector_always_recognized :
  (forall (a b c : byte) (rest : list byte) (f : Frame),
     let '(_, _, f', _) := DeserializeFrameStart (a :: b :: c :: rest) f in
     recognized (FrameMessageCRCType f')) /\
  (forall r : bufio.Reader,
     let '(fr, err, _) := DeserializeFrame r in
     recognized (FrameMessageCRCType fr) /\
     (forall data, snd (CalculateCRC (FrameMessageCRCType fr) data) = None) /\
     (forall r',
        snd (fst (DeserializeMessageCRC (FrameMessageCRCType fr) r'))
        <> Some (errors_New "invalid CRC Type")) /\
     (forall e, err = Some e -> kindOf e <> ProtocolError)).
Proof.
  split.
  - intros a b c rest f. rewrite DeserializeFrameStart_cons. cbv zeta.
    destruct (wrap 8 (crc.CalculateCRC FrameHash [a; b])
              =? Z.land (u8 c) 0x0F);
      apply recognized_two_bits.
  - intros r. pose proof (DeserializeFrame_facts r) as H.
    destruct (DeserializeFrame r) as [[fr err] r'].
    destruct H as [_ _ _ _ Hsel Hkind].
    split; [exact Hsel |]. split; [| split].
    + intros data. apply recognized_CalculateCRC, Hsel.
    + intros r0.
      destruct (recognized_DeserializeMessageCRC _ r0 Hsel) as [-> | ->];
        discriminate.
    + exact Hkind.
Qed.

(** C9, as the code has it.  [PayloadLength] is 0 for every stream, the
    payload of every frame [DeserializeFrame] returns is empty, and
    [TimeTag] is 0; but [SolutionID] is the conjunction of its two
    fragments, [(b2 & 7) & (b3 >> 4)], and [EncryptionSequenceNumber] is
    [((b4 >> 2) & 3) & (b5 >> 6)], for [b2..b5] the bytes 2 to 5 of the
    block, and neither is always 0. *)
Theorem and_merged_fields :
  (forall (a b c : byte) (rest : list byte) (f : Frame),
     let '(_, _, f', _) := DeserializeFrameStart (a :: b :: c :: rest) f in
     PayloadLength f' = 0) /\
  (forall r : bufio.Reader,
     let '(fr, _, _) := DeserializeFrame r in
     PayloadLength fr = 0 /\ MessagePayload fr = [] /\ TimeTag fr = 0) /\
  (forall (p0 p1 p2 p3 p4 p5 p6 p7 : byte) (rest : list byte) (f : Frame),
     let '(_, _, f', _) :=
       DeserializePayloadDescriptionBlock
         (p0 :: p1 :: p2 :: p3 :: p4 :: p5 :: p6 :: p7 :: rest) f in
     TimeTag f' = 0 /\
     SolutionID f' = Z.land (Z.land (u8 p2) 0x07) (shr (u8 p3) 4) /\
     EncryptionSequenceNumber f'
     = Z.land (Z.land (shr (u8 p4) 2) 0x03) (shr (u8 p5) 6)).
Proof.
  split; [| split].
  - intros a b c rest f. rewrite DeserializeFrameStart_cons. cbv zeta.
    destruct (wrap 8 (crc.CalculateCRC FrameHash [a; b])
              =? Z.land (u8 c) 0x0F); reflexivity.
  - intros r. pose proof (DeserializeFrame_facts r) as H.
    destruct (DeserializeFrame r) as [[fr err] r'].
    destruct H as [Hp Hm Ht _ _ _]. auto.
  - intros. rewrite DeserializePayloadDescriptionBlock_cons.
    repeat split.
Qed.

(** ** Concrete streams *)

(** The library model agrees with the published check values of the four
    parameter sets on the reference input. *)
Example CalculateCRC_check_values :
  CalculateCRC CRC8CCITT checkInput = (0xF4, None) /\
  CalculateCRC CRC16CCITT checkInput = (0x31C3, None) /\
  CalculateCRC CRC24Radix64 checkInput = (0xCDE703, None) /\
  CalculateCRC CRC32CCITT checkInput = (0xFC891918, None).
Proof.
  repeat split; vm_compute; reflexivity.
Qed.

(** C1, at a frame with a payload.  The encoder packs [PayloadLength] 1 and
    the payload byte [0xAA]; [DeserializeFrame] on those twelve bytes gives
    a frame with [PayloadLength] 0 and no payload, takes the payload byte
    for the checksum and fails. *)
Theorem decode_loses_payload :
  Encoder.encodeFrame payloadFrame
  = B [0x73; 0; 0; 0x80; 0; 0; 0; 0; 0; 0; 0xAA; 0xE0] /\
  PayloadLength payloadFrame = 1 /\
  MessagePayload payloadFrame = B [0xAA] /\
  let '(fr, err, rest) := DeserializeFrame (Encoder.encodeFrame payloadFrame) in
  PayloadLength fr = 0 /\ MessagePayload fr = [] /\ MessageCRC fr = 0xAA /\
  err = Some (errors_New "message CRC does not match computed value") /\
  rest = B [0xE0].
Proof.
  vm_compute. repeat split.
Qed.

(** C2, at the minimal frame.  The eleven bytes are what the encoder
    produces for the all-zero fields, header checksum and trailing
    checksum included; [DeserializeFrame] consumes the preamble and the
    header, finds seven bytes where it looks ahead eight, and fails with
    the end-of-stream error. *)
Theorem minimal_frame_rejected :
  Encoder.encodeFrame minimalFields = minimalFrame /\
  wrap 8 (crc.CalculateCRC FrameHash (B [0; 0])) = Z.land 0 0x0F /\
  let '(fr, err, rest) := DeserializeFrame minimalFrame in
  err = Some io_EOF /\ kindOf io_EOF = StreamError /\
  rest = B [0; 0; 0; 0; 0; 0; 0].
Proof.
  vm_compute. repeat split.
Qed.

(** One more byte behind the same frame and it is accepted. *)
Lemma minimal_frame_followed_accepted (x : byte) :
  DeserializeFrame (minimalFrame ++ [x]) = (minimalFields, None, [x]).
Proof.
  reflexivity.
Qed.

(** C3, at a block with the flag set.  Bit 3 of the first byte (the
    position of [TimeTagType] on the wire) and bit 2 (the one the mask
    [0x04] selects) are both set, yet the flag comes out false, six bytes
    are consumed and [TimeTag] is 0. *)
Theorem flagged_block_consumes_six :
  let '(parsedBytes, err, fr, rest) :=
    DeserializePayloadDescriptionBlock flaggedBlock zeroFrame in
  parsedBytes = B [0x0C; 1; 2; 3; 4; 5] /\ err = None /\
  TimeTagType fr = false /\ TimeTag fr = 0 /\ rest = B [6; 7; 8].
Proof.
  vm_compute. repeat split.
Qed.

(** C4, at the 16-bit selector.  Both bytes are consumed, and the value
    returned is 0, not [0x1234]. *)
Theorem crc16_bytes_read_as_zero :
  DeserializeMessageCRC CRC16CCITT (B [0x12; 0x34]) = (0, None, []) /\
  0x12 * 256 + 0x34 = 0x1234.
Proof.
  vm_compute. repeat split.
Qed.

(** C6, at the minimal frame with a wrong trailing checksum.  The checksum
    of the body is 0 and the frame ends in 1; [DeserializeFrame] fails with
    the end-of-stream error, seven bytes of the frame still unread. *)
Theorem corrupted_minimal_frame_not_consumed :
  CalculateCRC CRC8CCITT (B [0; 0; 0; 0; 0; 0; 0; 0; 0]) = (0, None) /\
  let '(fr, err, rest) := DeserializeFrame corruptedMinimalFrame in
  err = Some io_EOF /\ kindOf io_EOF = StreamError /\
  rest = B [0; 0; 0; 0; 0; 0; 0x01].
Proof.
  vm_compute. repeat split.
Qed.

(** A frame whose trailing checksum is wrong is accepted: the 16-bit value
    on the wire is read as 0, which is the checksum of this body. *)
Lemma corrupted_crc16_frame_accepted :
  CalculateCRC CRC16CCITT (B [0; 0; 0x10; 0; 0; 0; 0x1B; 0xA7; 0])
  = (0, None) /\
  let '(fr, err, rest) := DeserializeFrame corruptedCRC16Frame in
  err = None /\ MessageCRC fr = 0 /\ rest = [].
Proof.
  vm_compute. repeat split.
Qed.

(** C7, at a frame cut one byte short.  Twelve of the thirteen bytes of a
    frame with the 24-bit checksum: the read of the checksum delivers two
    bytes without an error, and the failure is the checksum mismatch, an
    integrity error. *)
Theorem truncated_frame_integrity_error :
  Encoder.encodeFrame crc24Fields
  = B [0x73; 0; 0; 0x20; 0; 0; 0; 0; 0; 0; 0xED; 0x4E; 0x97] /\
  let '(fr, err, rest) :=
    DeserializeFrame (firstn 12 (Encoder.encodeFrame crc24Fields)) in
  err = Some (errors_New "message CRC does not match computed value") /\
  kindOf (errors_New "message CRC does not match computed value")
  = IntegrityError /\
  rest = [].
Proof.
  vm_compute. repeat split.
Qed.

(** C9 fails as stated: on this block [SolutionID] is 7 and
    [EncryptionSequenceNumber] is 3. *)
Lemma solution_id_not_always_zero :
  let '(_, err, fr, _) :=
    DeserializePayloadDescriptionBlock overlappingBlock zeroFrame in
  err = None /\ SolutionID fr = 7 /\ EncryptionSequenceNumber fr = 3 /\
  ~ (SolutionID fr = 0 /\ EncryptionSequenceNumber fr = 0).
Proof.
  vm_compute. repeat split. intros [H _]. discriminate H.
Qed.

(** * Further properties *)

(** ** The reader *)

Lemma skipn_min_length {A : Type} (n : nat) (l : list A) :
  skipn (Nat.min n (length l)) l = skipn n l.
Proof.
  destruct (Nat.le_ge_cases n (length l)) as [H | H].
  - rewrite Nat.min_l by exact H. reflexivity.
  - rewrite Nat.min_r by exact H.
    rewrite !skipn_all2 by lia. reflexivity.
Qed.

(** [Read] in one equation: the slice has the length asked for, the bytes
    delivered come first and what is left of the reader follows them. *)
Lemma Read_spec (n : nat) (r : bufio.Reader) :
  let '(b, k, err, r') := bufio.Read n r in
  k = Nat.min n (length r) /\
  b = firstn n r ++ repeat x00 (n - length r) /\
  length b = n /\
  r' = skipn n r /\
  (err = None \/ (err = Some io_EOF /\ r = [] /\ n <> O)).
Proof.
  destruct n as [| n]; [cbn; auto 6 |].
  destruct r as [| x r].
  { cbn [bufio.Read length firstn skipn app Nat.sub Nat.min].
    split; [reflexivity |]. split; [reflexivity |].
    split; [apply repeat_length |]. split; [reflexivity |].
    right. repeat split. discriminate. }
  unfold bufio.Read.
  generalize (x :: r) (S n). intros l m.
  destruct (Nat.le_ge_cases m (length l)) as [H | H].
  - rewrite Nat.min_l by exact H.
    replace (m - m)%nat with O by lia.
    replace (m - length l)%nat with O by lia.
    repeat split; auto.
    rewrite length_app, length_firstn. cbn. lia.
  - rewrite Nat.min_r by exact H.
    rewrite firstn_all, (firstn_all2 l) by exact H.
    repeat split; auto.
    + rewrite length_app, repeat_length. lia.
    + rewrite !skipn_all2 by lia. reflexivity.
Qed.

(** ** The checksum reader, for the recognized selectors *)

(** [DeserializeMessageCRC] in one equation. *)
Lemma DeserializeMessageCRC_eq (t : MessageCRCType) (r : bufio.Reader) :
  recognized t ->
  DeserializeMessageCRC t r =
  match r with
  | [] => (0, Some io_EOF, [])
  | x :: _ =>
      (if t =? CRC8CCITT then u8 x else 0, None,
       skipn (Z.to_nat t + 1) r)
  end.
Proof.
  intros Ht.
  assert (Hv : t <> 0 -> fst (fst (DeserializeMessageCRC t r)) = 0).
  { intros Hn. apply DeserializeMessageCRC_wide_zero.
    apply recognized_cases in Ht. simpl. intuition. }
  apply recognized_cases in Ht.
  destruct Ht as [-> | Ht].
  { destruct r as [| x r]; reflexivity. }
  assert (Hn : t <> 0) by lia. specialize (Hv Hn).
  assert (Ht0 : (t =? CRC8CCITT) = false) by (apply Z.eqb_neq; exact Hn).
  rewrite Ht0.
  destruct r as [| x r].
  { destruct Ht as [-> | [-> | ->]]; reflexivity. }
  revert Hv.
  destruct Ht as [-> | [-> | ->]];
    unfold DeserializeMessageCRC;
    cbn [Z.eqb CRC8CCITT CRC16CCITT CRC24Radix64 CRC32CCITT Pos.eqb];
    match goal with
    | |- context [bufio.Read ?n (x :: r)] =>
        pose proof (Read_spec n (x :: r)) as Hr;
        destruct (bufio.Read n (x :: r)) as [[[b k] err] r']
    end;
    destruct Hr as (_ & _ & _ & -> & [-> | (_ & Habs & _)]);
    try discriminate Habs;
    cbn [fst]; intros ->; reflexivity.
Qed.



(** The value read always fits a byte. *)
Lemma DeserializeMessageCRC_value_range (t : MessageCRCType)
    (r : bufio.Reader) :
  recognized t -> 0 <= fst (fst (DeserializeMessageCRC t r)) < 256.
Proof.
  intros Ht. rewrite DeserializeMessageCRC_eq by exact Ht.
  destruct r as [| x r]; cbn [fst]; [lia |].
  destruct (t =? CRC8CCITT); [apply u8_range | lia].
Qed.

(** ** The whole frame, path by path *)

Lemma u8_preamble (b : byte) : u8 b = FramePreamble -> b = x73.
Proof.
  intros H.
  destruct b; try reflexivity; vm_compute in H; discriminate H.
Qed.

Lemma preamble_test (b : byte) :
  negb (Preamble (setPreamble zeroFrame (u8 b)) =? FramePreamble)
  = negb (u8 b =? FramePreamble).
Proof.
  reflexivity.
Qed.

Lemma DeserializeFrame_bad_preamble (b : byte) (rest : list byte) :
  u8 b <> FramePreamble ->
  DeserializeFrame (b :: rest)
  = (setPreamble zeroFrame (u8 b), Some (errors_New "invalid preamble"),
     rest).
Proof.
  intros H. apply Z.eqb_neq in H.
  unfold DeserializeFrame. cbn [bufio.ReadByte].
  rewrite preamble_test, H. cbn [negb]. cbv beta iota. reflexivity.
Qed.

Lemma DeserializeFrame_short_header (p : byte) (rest : list byte) :
  u8 p = FramePreamble ->
  (length rest < 3)%nat ->
  DeserializeFrame (p :: rest)
  = (setPreamble zeroFrame FramePreamble, Some io_EOF, rest).
Proof.
  intros Hp H. unfold DeserializeFrame. cbn [bufio.ReadByte].
  rewrite preamble_test, Hp, Z.eqb_refl.
  rewrite DeserializeFrameStart_short by exact H.
  cbn [negb]. cbv beta iota. reflexivity.
Qed.

(** The frame after the header alone. *)
Lemma DeserializeFrame_bad_header (p a b c : byte) (rest : list byte) :
  u8 p = FramePreamble ->
  wrap 8 (crc.CalculateCRC FrameHash [a; b]) <> Z.land (u8 c) 0x0F ->
  DeserializeFrame (p :: a :: b :: c :: rest)
  = (headerFields a c,
     Some (errors_New "frame CRC did not match calculated value"),
     a :: b :: c :: rest).
Proof.
  intros Hp H. apply Z.eqb_neq in H.
  unfold DeserializeFrame. cbn [bufio.ReadByte].
  rewrite preamble_test, Hp, Z.eqb_refl.
  rewrite DeserializeFrameStart_cons. cbv zeta. rewrite H.
  cbn [negb]. cbv beta iota. reflexivity.
Qed.

Lemma DeserializeFrame_short_block (p a b c : byte) (rest : list byte) :
  u8 p = FramePreamble ->
  wrap 8 (crc.CalculateCRC FrameHash [a; b]) = Z.land (u8 c) 0x0F ->
  (length rest < 8)%nat ->
  DeserializeFrame (p :: a :: b :: c :: rest)
  = (headerFields a c,
     Some io_EOF, rest).
Proof.
  intros Hp H Hs. apply Z.eqb_eq in H.
  unfold DeserializeFrame. cbn [bufio.ReadByte].
  rewrite preamble_test, Hp, Z.eqb_refl.
  rewrite DeserializeFrameStart_cons. cbv zeta. rewrite H.
  rewrite DeserializePayloadDescriptionBlock_short by exact Hs.
  cbn [negb]. cbv beta iota. reflexivity.
Qed.

(** Past the block: the authentication data, the checksum and the
    comparison, on whatever is left. *)
Lemma DeserializeFrame_body
    (p a b c p0 p1 p2 p3 p4 p5 p6 p7 : byte) (rest : list byte) :
  u8 p = FramePreamble ->
  wrap 8 (crc.CalculateCRC FrameHash [a; b]) = Z.land (u8 c) 0x0F ->
  DeserializeFrame
    (p :: a :: b :: c ::
     p0 :: p1 :: p2 :: p3 :: p4 :: p5 :: p6 :: p7 :: rest) =
  let t := shr (Z.land (u8 c) 0x30) 4 in
  let '(auth, _, _, r3) :=
    bufio.Read (Z.to_nat (Z.land (u8 p5) 0x7)) (p6 :: p7 :: rest) in
  let '(v, err, r4) := DeserializeMessageCRC t r3 in
  let fr :=
    setMessageCRC
      (setEmbeddedAuthenticationData (parsedFields a c p0 p2 p3 p4 p5) auth)
      v in
  match err with
  | Some e => (fr, Some e, r4)
  | None =>
      if fst (CalculateCRC t
                (a :: b :: c :: p0 :: p1 :: p2 :: p3 :: p4 :: p5 :: auth))
         =? v
      then (fr, None, r4)
      else (fr,
            Some (errors_New "message CRC does not match computed value"),
            r4)
  end.
Proof.
  intros Hp H. apply Z.eqb_eq in H.
  unfold DeserializeFrame. cbn [bufio.ReadByte].
  rewrite preamble_test, Hp, Z.eqb_refl.
  rewrite DeserializeFrameStart_cons. cbv zeta. rewrite H.
  cbn [negb]. cbv beta iota.
  rewrite DeserializePayloadDescriptionBlock_cons.
  frame_cbn. cbn [Z.to_nat bufio.Read]. frame_cbn.
  pose proof (Read_nonempty (Z.to_nat (Z.land (u8 p5) 0x7)) p6 (p7 :: rest))
    as Hread.
  destruct (bufio.Read (Z.to_nat (Z.land (u8 p5) 0x7)) (p6 :: p7 :: rest))
    as [[[auth k] err] r3].
  cbn [fst snd] in Hread. subst err. frame_cbn.
  destruct (DeserializeMessageCRC (shr (Z.land (u8 c) 0x30) 4) r3)
    as [[v err] r4].
  cbv beta iota zeta. unfold parsedFields. frame_cbn.
  destruct err as [e |]; [reflexivity |].
  cbn [app].
  destruct (CalculateCRC _ _) as [cv ce]. cbn [fst].
  destruct (cv =? v); cbn [negb]; cbv beta iota; reflexivity.
Qed.

Lemma streamShape_total (r : list byte) : streamShape r.
Proof.
  destruct r as [| b r]; [constructor |].
  destruct (Z.eq_dec (u8 b) FramePreamble) as [Hb | Hb];
    [| now constructor].
  apply u8_preamble in Hb. subst b.
  destruct (three_or_short r) as [Hs | (a & b & c & rest & ->)];
    [now constructor |].
  destruct (Z.eq_dec (wrap 8 (crc.CalculateCRC FrameHash [a; b]))
                     (Z.land (u8 c) 0x0F)) as [Hh | Hh];
    [| now constructor].
  destruct (eight_or_short rest)
    as [Hs | (p0 & p1 & p2 & p3 & p4 & p5 & p6 & p7 & r2 & ->)];
    now constructor.
Qed.

Lemma authLength_range (x : byte) : 0 <= Z.land (u8 x) 0x7 <= 7.
Proof.
  assert (H : ((0 <=? Z.land (u8 x) 0x7) && (Z.land (u8 x) 0x7 <=? 7))%bool
              = true).
  { apply (forall_byte
             (fun y => ((0 <=? Z.land y 0x7) && (Z.land y 0x7 <=? 7))%bool)).
    vm_compute. reflexivity. }
  apply andb_true_iff in H. destruct H as [H1 H2].
  split; [apply Z.leb_le, H1 | apply Z.leb_le, H2].
Qed.

(** The outcome past the block in closed form: [n] bytes of
    authentication data, then the checksum, out of [tail]. *)
Lemma DeserializeFrame_body_outcome
    (p a b c p0 p1 p2 p3 p4 p5 p6 p7 : byte) (rest : list byte) :
  u8 p = FramePreamble ->
  wrap 8 (crc.CalculateCRC FrameHash [a; b]) = Z.land (u8 c) 0x0F ->
  let t := shr (Z.land (u8 c) 0x30) 4 in
  let n := Z.to_nat (Z.land (u8 p5) 0x7) in
  let tail := p6 :: p7 :: rest in
  let auth := firstn n tail ++ repeat x00 (n - length tail) in
  let body := a :: b :: c :: p0 :: p1 :: p2 :: p3 :: p4 :: p5 :: auth in
  exists (v : Z) (err : option error),
    DeserializeFrame
      (p :: a :: b :: c :: p0 :: p1 :: p2 :: p3 :: p4 :: p5 :: tail)
    = (setMessageCRC
         (setEmbeddedAuthenticationData
            (parsedFields a c p0 p2 p3 p4 p5) auth) v,
       err, skipn (n + (Z.to_nat t + 1)) tail) /\
    match skipn n tail with
    | [] => v = 0 /\ err = Some io_EOF
    | x :: _ =>
        v = (if t =? CRC8CCITT then u8 x else 0) /\
        err = (if fst (CalculateCRC t body) =? v then None
               else Some (errors_New
                            "message CRC does not match computed value"))
    end.
Proof.
  intros Hp H. cbv zeta.
  rewrite (DeserializeFrame_body p a b c p0 p1 p2 p3 p4 p5 p6 p7 rest Hp H).
  cbv zeta.
  pose proof (Read_spec (Z.to_nat (Z.land (u8 p5) 0x7)) (p6 :: p7 :: rest))
    as Hr.
  destruct (bufio.Read (Z.to_nat (Z.land (u8 p5) 0x7)) (p6 :: p7 :: rest))
    as [[[auth k] e0] r3].
  destruct Hr as (_ & -> & _ & -> & _).
  rewrite (Nat.add_comm (Z.to_nat (Z.land (u8 p5) 0x7))).
  rewrite <- (skipn_skipn (Z.to_nat (shr (Z.land (u8 c) 0x30) 4) + 1)
                (Z.to_nat (Z.land (u8 p5) 0x7)) (p6 :: p7 :: rest)).
  rewrite (DeserializeMessageCRC_eq _ _ (recognized_two_bits c)).
  destruct (skipn (Z.to_nat (Z.land (u8 p5) 0x7)) (p6 :: p7 :: rest))
    as [| x l].
  - eexists. eexists. split; [| split; reflexivity].
    rewrite skipn_nil. reflexivity.
  - cbv beta iota.
    eexists. eexists. split; [| split; reflexivity].
    destruct (fst (CalculateCRC _ _) =? _); reflexivity.
Qed.

(** Every call of [DeserializeFrame] ends in one of the ways of
    [outcome]. *)
Lemma DeserializeFrame_outcome (r : bufio.Reader) :
  let '(fr, err, r') := DeserializeFrame r in outcome r fr err r'.
Proof.
  destruct (streamShape_total r)
    as [| b rest Hb | rest Hs | a b c rest Hh | a b c rest Hh Hs
        | a b c p0 p1 p2 p3 p4 p5 p6 p7 rest Hh].
  - exact endOfStream.
  - rewrite DeserializeFrame_bad_preamble by exact Hb.
    now constructor.
  - rewrite (DeserializeFrame_short_header x73 rest eq_refl Hs).
    now constructor.
  - rewrite (DeserializeFrame_bad_header x73 a b c rest eq_refl Hh).
    now constructor.
  - rewrite (DeserializeFrame_short_block x73 a b c rest eq_refl Hh Hs).
    now constructor.
  - destruct (DeserializeFrame_body_outcome
                x73 a b c p0 p1 p2 p3 p4 p5 p6 p7 rest eq_refl Hh)
      as (v & err & -> & Hv).
    destruct (skipn (Z.to_nat (Z.land (u8 p5) 7)) (p6 :: p7 :: rest))
      as [| x l] eqn:Hsk.
    + destruct Hv as [-> ->].
      rewrite Nat.add_comm, <- skipn_skipn, Hsk, skipn_nil.
      eapply checksumCutShort; eauto. cbn [length]. lia.
    + destruct Hv as [-> ->].
      eapply checksumCompared; eauto. cbn [length]. lia.
Qed.

(** ** Field ranges *)

Lemma range_byte (f : Z -> Z) (lo hi : Z) :
  forallb (fun x => (lo <=? f x) && (f x <? hi))%bool range256 = true ->
  forall b, lo <= f (u8 b) < hi.
Proof.
  intros H b.
  pose proof (forall_byte _ H b) as Hb. cbv beta in Hb.
  apply andb_true_iff in Hb. destruct Hb as [H1 H2].
  apply Z.leb_le in H1. apply Z.ltb_lt in H2. lia.
Qed.

Lemma range_byte2 (f : Z -> Z -> Z) (lo hi : Z) :
  forallb (fun x =>
             forallb (fun y => (lo <=? f x y) && (f x y <? hi))%bool
               range256) range256 = true ->
  forall a b, lo <= f (u8 a) (u8 b) < hi.
Proof.
  intros H a b.
  pose proof (forall_byte2 _ H a b) as Hb. cbv beta in Hb.
  apply andb_true_iff in Hb. destruct Hb as [H1 H2].
  apply Z.leb_le in H1. apply Z.ltb_lt in H2. lia.
Qed.

Lemma messageType_range (a : byte) : 0 <= shr (u8 a) 1 < 2 ^ 7.
Proof.
  apply (range_byte (fun x => shr x 1)). vm_compute. reflexivity.
Qed.

Lemma selector_range (c : byte) : 0 <= shr (Z.land (u8 c) 0x30) 4 < 2 ^ 2.
Proof.
  apply (range_byte (fun x => shr (Z.land x 0x30) 4)).
  vm_compute. reflexivity.
Qed.

Lemma lowNibble_range (c : byte) : 0 <= Z.land (u8 c) 0x0F < 2 ^ 4.
Proof.
  apply (range_byte (fun x => Z.land x 0x0F)). vm_compute. reflexivity.
Qed.

Lemma highNibble_range (c : byte) : 0 <= shr (u8 c) 4 < 2 ^ 4.
Proof.
  apply (range_byte (fun x => shr x 4)). vm_compute. reflexivity.
Qed.

Lemma encryptionID_range (c : byte) :
  0 <= shr (Z.land (u8 c) 0xF0) 4 < 2 ^ 4.
Proof.
  apply (range_byte (fun x => shr (Z.land x 0xF0) 4)).
  vm_compute. reflexivity.
Qed.

Lemma authenticationIndicator_range (c : byte) :
  0 <= shr (Z.land (u8 c) 0x38) 3 < 2 ^ 3.
Proof.
  apply (range_byte (fun x => shr (Z.land x 0x38) 3)).
  vm_compute. reflexivity.
Qed.

Lemma authenticationLength_range (c : byte) :
  0 <= Z.land (u8 c) 0x7 < 2 ^ 3.
Proof.
  apply (range_byte (fun x => Z.land x 0x7)). vm_compute. reflexivity.
Qed.

Lemma solutionID_range (a b : byte) :
  0 <= Z.land (Z.land (u8 a) 0x07) (shr (u8 b) 4) < 2 ^ 3.
Proof.
  apply (range_byte2 (fun x y => Z.land (Z.land x 0x07) (shr y 4))).
  vm_compute. reflexivity.
Qed.

Lemma encryptionSequenceNumber_range (a b : byte) :
  0 <= Z.land (Z.land (shr (u8 a) 2) 0x03) (shr (u8 b) 6) < 2 ^ 2.
Proof.
  apply (range_byte2 (fun x y => Z.land (Z.land (shr x 2) 0x03) (shr y 6))).
  vm_compute. reflexivity.
Qed.

Lemma zeroFrame_fits (v : Z) :
  0 <= v < 2 ^ 8 -> fieldsFitWidths (setPreamble zeroFrame v).
Proof.
  intros Hv. constructor; unfold zeroFrame; frame_cbn; lia.
Qed.

Lemma headerFields_fits (a c : byte) : fieldsFitWidths (headerFields a c).
Proof.
  pose proof (messageType_range a). pose proof (selector_range c).
  pose proof (lowNibble_range c).
  constructor; unfold headerFields, zeroFrame; frame_cbn;
    try assumption; try lia; unfold FramePreamble; lia.
Qed.

Lemma parsedFields_fits (a c p0 p2 p3 p4 p5 : byte) (auth : list byte)
    (v : Z) :
  0 <= v < 2 ^ 8 ->
  fieldsFitWidths
    (setMessageCRC
       (setEmbeddedAuthenticationData (parsedFields a c p0 p2 p3 p4 p5) auth)
       v).
Proof.
  intros Hv.
  pose proof (messageType_range a). pose proof (selector_range c).
  pose proof (lowNibble_range c). pose proof (highNibble_range p0).
  pose proof (solutionID_range p2 p3). pose proof (lowNibble_range p3).
  pose proof (encryptionID_range p4).
  pose proof (encryptionSequenceNumber_range p4 p5).
  pose proof (authenticationIndicator_range p5).
  pose proof (authenticationLength_range p5).
  constructor; unfold parsedFields; frame_cbn;
    try assumption; lia.
Qed.

(** ** What the code does, function by function *)




(** X3.  The header checksum is an 8-bit value compared with a 4-bit
    field: when the checksum of the first two bytes is 16 or more,
    [DeserializeFrameStart] rejects the header whatever the third byte
    is, and leaves the reader where it was. *)
Theorem header_checksum_above_nibble_rejected
    (a b c : byte) (rest : list byte) (f : Frame) :
  16 <= wrap 8 (crc.CalculateCRC FrameHash [a; b]) ->
  let '(_, err, _, r') := DeserializeFrameStart (a :: b :: c :: rest) f in
  err = Some (errors_New "frame CRC did not match calculated value") /\
  r' = a :: b :: c :: rest.
Proof.
  intros H. rewrite DeserializeFrameStart_cons. cbv zeta.
  pose proof (lowNibble_range c) as Hc.
  destruct (wrap 8 (crc.CalculateCRC FrameHash [a; b])
            =? Z.land (u8 c) 0x0F) eqn:E.
  - apply Z.eqb_eq in E. lia.
  - split; reflexivity.
Qed.

Lemma header_checksum_above_nibble_rejected_witness :
  16 <= wrap 8 (crc.CalculateCRC FrameHash [x0a; x00]) /\
  snd (DeserializeFrameStart [x0a; x00; x58; x30] zeroFrame)
  = [x0a; x00; x58; x30].
Proof.
  assert (H : 16 <= wrap 8 (crc.CalculateCRC FrameHash [x0a; x00]))
    by (vm_compute; discriminate).
  split; [exact H |].
  pose proof (header_checksum_above_nibble_rejected
                x0a x00 x58 [x30] zeroFrame H) as M.
  destruct (DeserializeFrameStart [x0a; x00; x58; x30] zeroFrame)
    as [[[h e] f] r'].
  destruct M as [_ M]. exact M.
Defined.

(** X4.  [DeserializePayloadDescriptionBlock] consumes six bytes or none:
    with fewer than eight bytes to look at it fails with [io.EOF],
    returns no bytes and touches neither the reader nor the frame; with
    eight or more it never fails, returns the first six bytes, leaves the
    reader six bytes further and the flag [TimeTagType] unset. *)
Theorem payload_description_six_or_nothing
    (r : bufio.Reader) (f : Frame) :
  let '(parsedBytes, err, f', r') :=
    DeserializePayloadDescriptionBlock r f in
  ((length r < 8)%nat ->
   parsedBytes = [] /\ err = Some io_EOF /\ f' = f /\ r' = r) /\
  ((8 <= length r)%nat ->
   parsedBytes = firstn 6 r /\ err = None /\ r' = skipn 6 r /\
   TimeTagType f' = false).
Proof.
  destruct (eight_or_short r)
    as [Hs | (p0 & p1 & p2 & p3 & p4 & p5 & p6 & p7 & rest & ->)].
  - rewrite DeserializePayloadDescriptionBlock_short by exact Hs.
    split; [auto | intros H; lia].
  - rewrite DeserializePayloadDescriptionBlock_cons.
    split; [cbn [length]; intros H; lia |].
    intros _. repeat split.
Qed.

Lemma payload_description_six_or_nothing_witness :
  (8 <= length flaggedBlock)%nat /\
  (length agreeingStart < 8)%nat /\
  snd (DeserializePayloadDescriptionBlock flaggedBlock zeroFrame)
  = skipn 6 flaggedBlock /\
  snd (DeserializePayloadDescriptionBlock agreeingStart zeroFrame)
  = agreeingStart.
Proof.
  assert (H : (8 <= length flaggedBlock)%nat) by (cbn; lia).
  assert (H' : (length agreeingStart < 8)%nat) by (cbn; lia).
  split; [exact H |]. split; [exact H' |].
  pose proof (payload_description_six_or_nothing flaggedBlock zeroFrame)
    as M.
  pose proof (payload_description_six_or_nothing agreeingStart zeroFrame)
    as N.
  destruct (DeserializePayloadDescriptionBlock flaggedBlock zeroFrame)
    as [[[pb e] f] r'].
  destruct (DeserializePayloadDescriptionBlock agreeingStart zeroFrame)
    as [[[pb2 e2] f2] r2].
  destruct M as [_ M]. destruct (M H) as (_ & _ & Hr & _).
  destruct N as [N _]. destruct (N H') as (_ & _ & _ & Hr2).
  split; [exact Hr | exact Hr2].
Defined.

(** X5.  A first byte other than the preamble: [DeserializeFrame] fails
    with the invalid-preamble error, a framing error, having consumed that
    one byte and nothing else; the frame returned carries the byte as its
    [Preamble]. *)
Theorem invalid_preamble_discards_one_byte (b : byte) (rest : list byte) :
  u8 b <> FramePreamble ->
  let '(fr, err, r') := DeserializeFrame (b :: rest) in
  err = Some (errors_New "invalid preamble") /\
  kindOf (errors_New "invalid preamble") = FramingError /\
  r' = rest /\ Preamble fr = u8 b.
Proof.
  intros H. rewrite DeserializeFrame_bad_preamble by exact H.
  repeat split.
Qed.

Lemma invalid_preamble_discards_one_byte_witness :
  u8 x00 <> FramePreamble /\
  snd (DeserializeFrame (x00 :: minimalFrame)) = minimalFrame.
Proof.
  assert (H : u8 x00 <> FramePreamble) by (vm_compute; discriminate).
  split; [exact H |].
  pose proof (invalid_preamble_discards_one_byte x00 minimalFrame H) as M.
  destruct (DeserializeFrame (x00 :: minimalFrame)) as [[fr e] r'].
  destruct M as (_ & _ & M & _). exact M.
Defined.

(** X6.  A preamble followed by a header whose checksum does not agree:
    [DeserializeFrame] fails with the frame-CRC error having consumed the
    preamble only; the three header bytes are still to be read. *)
Theorem bad_header_discards_only_preamble
    (a b c : byte) (rest : list byte) :
  wrap 8 (crc.CalculateCRC FrameHash [a; b]) <> Z.land (u8 c) 0x0F ->
  let '(_, err, r') := DeserializeFrame (x73 :: a :: b :: c :: rest) in
  err = Some (errors_New "frame CRC did not match calculated value") /\
  r' = a :: b :: c :: rest.
Proof.
  intros H.
  rewrite (DeserializeFrame_bad_header x73 a b c rest eq_refl H).
  split; reflexivity.
Qed.

Lemma bad_header_discards_only_preamble_witness :
  wrap 8 (crc.CalculateCRC FrameHash [x00; x00]) <> Z.land (u8 x01) 0x0F /\
  snd (DeserializeFrame [x73; x00; x00; x01; xaa]) = [x00; x00; x01; xaa].
Proof.
  assert (H : wrap 8 (crc.CalculateCRC FrameHash [x00; x00])
              <> Z.land (u8 x01) 0x0F) by (vm_compute; discriminate).
  split; [exact H |].
  pose proof (bad_header_discards_only_preamble x00 x00 x01 [xaa] H) as M.
  destruct (DeserializeFrame [x73; x00; x00; x01; xaa]) as [[fr e] r'].
  destruct M as [_ M]. exact M.
Defined.

(** X7.  No stream shorter than twelve bytes is ever decoded: the
    preamble, the three header bytes and the eight bytes looked at for the
    payload description block must all be there, so [DeserializeFrame]
    returns an error on every such stream. *)
Theorem short_stream_never_decodes (r : bufio.Reader) :
  (length r < 12)%nat ->
  let '(_, err, _) := DeserializeFrame r in err <> None.
Proof.
  pose proof (DeserializeFrame_outcome r) as H.
  destruct (DeserializeFrame r) as [[fr err] r'].
  destruct H; intros Hlen; try discriminate.
  cbn [length] in Hlen. lia.
Qed.

Lemma short_stream_never_decodes_witness :
  (length minimalFrame < 12)%nat /\
  snd (fst (DeserializeFrame minimalFrame)) <> None.
Proof.
  assert (H : (length minimalFrame < 12)%nat) by (cbn; lia).
  split; [exact H |].
  pose proof (short_stream_never_decodes minimalFrame H) as M.
  destruct (DeserializeFrame minimalFrame) as [[fr e] r'].
  exact M.
Defined.

Lemma skipn_nil_length {A : Type} (n : nat) (l : list A) :
  skipn n l = [] -> (length l <= n)%nat.
Proof.
  intros H. pose proof (length_skipn n l) as Hl.
  rewrite H in Hl. cbn in Hl. lia.
Qed.


(** X9.  Every field of the frame [DeserializeFrame] returns, on every
    path, fits the width the declaration of [Frame] gives it; and
    [SolutionID] and [EncryptionSequenceNumber], declared 7 and 6 bits
    wide, never exceed 7 and 3. *)
Theorem returned_fields_fit_widths (r : bufio.Reader) :
  let '(fr, _, _) := DeserializeFrame r in
  fieldsFitWidths fr /\
  SolutionID fr <= 7 /\ EncryptionSequenceNumber fr <= 3.
Proof.
  pose proof (DeserializeFrame_outcome r) as H.
  destruct (DeserializeFrame r) as [[fr err] r'].
  destruct H.
  - split; [apply (zeroFrame_fits 0); lia | cbn; lia].
  - split; [apply zeroFrame_fits, u8_range | cbn; lia].
  - split; [apply zeroFrame_fits; unfold FramePreamble; lia | cbn; lia].
  - split; [apply headerFields_fits | cbn; lia].
  - split; [apply headerFields_fits | cbn; lia].
  - split; [apply parsedFields_fits; lia |].
    pose proof (solutionID_range p2 p3).
    pose proof (encryptionSequenceNumber_range p4 p5).
    unfold parsedFields. frame_cbn. lia.
  - split.
    + apply parsedFields_fits. subst v.
      destruct (t =? CRC8CCITT); [apply u8_range | lia].
    + pose proof (solutionID_range p2 p3).
      pose proof (encryptionSequenceNumber_range p4 p5).
      unfold parsedFields. frame_cbn. lia.
Qed.





(** X12.  With the selectors 1 to 3 the checksum bytes on the wire play
    no part: whenever [DeserializeFrame] accepts a frame whose selector is
    not 0, the [MessageCRC] it returns is 0, so the frame was accepted
    because the checksum computed over it is 0. *)
Theorem accepted_wide_frame_has_zero_checksum (r : bufio.Reader) :
  let '(fr, err, _) := DeserializeFrame r in
  err = None -> FrameMessageCRCType fr <> CRC8CCITT -> MessageCRC fr = 0.
Proof.
  pose proof (DeserializeFrame_outcome r) as H.
  destruct (DeserializeFrame r) as [[fr err] r'].
  destruct H; intros Herr; try discriminate.
  unfold parsedFields. frame_cbn. intros Ht.
  subst v t. apply Z.eqb_neq in Ht. rewrite Ht. reflexivity.
Qed.

Lemma accepted_wide_frame_has_zero_checksum_witness :
  snd (fst (DeserializeFrame corruptedCRC16Frame)) = None /\
  FrameMessageCRCType (fst (fst (DeserializeFrame corruptedCRC16Frame)))
  <> CRC8CCITT /\
  MessageCRC (fst (fst (DeserializeFrame corruptedCRC16Frame))) = 0.
Proof.
  assert (H : snd (fst (DeserializeFrame corruptedCRC16Frame)) = None)
    by (vm_compute; reflexivity).
  assert (H' : FrameMessageCRCType
                 (fst (fst (DeserializeFrame corruptedCRC16Frame)))
               <> CRC8CCITT) by (vm_compute; discriminate).
  split; [exact H |]. split; [exact H' |].
  pose proof (accepted_wide_frame_has_zero_checksum corruptedCRC16Frame)
    as M.
  destruct (DeserializeFrame corruptedCRC16Frame) as [[fr e] r'].
  cbn [fst snd] in *. exact (M H H').
Defined.

(** ** Round trips with the wire layout *)

Lemma allb_spec (f : bool -> bool) :
  allb f = true -> forall b, f b = true.
Proof.
  unfold allb. intros H b. apply andb_true_iff in H.
  destruct b; tauto.
Qed.

Lemma Zrange_forall (P : Z -> bool) (n : nat) :
  forallb P (map Z.of_nat (seq 0 n)) = true ->
  forall x, 0 <= x < Z.of_nat n -> P x = true.
Proof.
  intros H x Hx. rewrite forallb_forall in H. apply H.
  replace x with (Z.of_nat (Z.to_nat x)) by lia.
  apply in_map, in_seq. lia.
Qed.

Lemma encodeFrameStart_bytes (f : Frame) :
  exists (y : byte) (z c3 c2 c1 c0 : bool),
    Encoder.encodeFrameStart f =
    [Encoder.byte_of_bits (Z.testbit (MessageType f) 6)
       (Z.testbit (MessageType f) 5) (Z.testbit (MessageType f) 4)
       (Z.testbit (MessageType f) 3) (Z.testbit (MessageType f) 2)
       (Z.testbit (MessageType f) 1) (Z.testbit (MessageType f) 0)
       (Z.testbit (PayloadLength f) 9);
     y;
     Encoder.byte_of_bits z (EAF f)
       (Z.testbit (FrameMessageCRCType f) 1)
       (Z.testbit (FrameMessageCRCType f) 0) c3 c2 c1 c0].
Proof.
  unfold Encoder.encodeFrameStart.
  generalize
    (crc.CalculateCRC FrameHash
       (firstn 2 (Encoder.pack (Encoder.headerBits f 0)))).
  intros c. cbv zeta.
  eexists. eexists. eexists. eexists. eexists. eexists. reflexivity.
Qed.

Lemma encodePayloadDescriptionBlock_bytes (f : Frame) :
  TimeTagType f = false ->
  exists (y z : byte) (t2 t1 t0 s3 s2 s1 s0 e3 e2 e1 e0 n1 n0 : bool),
    Encoder.encodePayloadDescriptionBlock f =
    [Encoder.byte_of_bits (Z.testbit (MessageSubtype f) 3)
       (Z.testbit (MessageSubtype f) 2) (Z.testbit (MessageSubtype f) 1)
       (Z.testbit (MessageSubtype f) 0) false t2 t1 t0;
     y; z;
     Encoder.byte_of_bits s3 s2 s1 s0
       (Z.testbit (SolutionProcessorID f) 3)
       (Z.testbit (SolutionProcessorID f) 2)
       (Z.testbit (SolutionProcessorID f) 1)
       (Z.testbit (SolutionProcessorID f) 0);
     Encoder.byte_of_bits (Z.testbit (EncryptionID f) 3)
       (Z.testbit (EncryptionID f) 2) (Z.testbit (EncryptionID f) 1)
       (Z.testbit (EncryptionID f) 0) e3 e2 e1 e0;
     Encoder.byte_of_bits n1 n0
       (Z.testbit (AuthenticationIndicator f) 2)
       (Z.testbit (AuthenticationIndicator f) 1)
       (Z.testbit (AuthenticationIndicator f) 0)
       (Z.testbit (EmbeddedAuthenticationLength f) 2)
       (Z.testbit (EmbeddedAuthenticationLength f) 1)
       (Z.testbit (EmbeddedAuthenticationLength f) 0)].
Proof.
  intros H. unfold Encoder.encodePayloadDescriptionBlock. rewrite H.
  repeat eexists.
Qed.

(** Reading a field back out of a packed byte. *)
Lemma messageType_unpacked (v : Z) (x : bool) :
  0 <= v < 2 ^ 7 ->
  shr (u8 (Encoder.byte_of_bits (Z.testbit v 6) (Z.testbit v 5) (Z.testbit v 4)
             (Z.testbit v 3) (Z.testbit v 2) (Z.testbit v 1)
             (Z.testbit v 0) x)) 1 = v.
Proof.
  intros Hv. apply Z.eqb_eq. revert x. apply allb_spec. revert v Hv.
  apply (Zrange_forall
           (fun v => allb (fun x =>
              shr (u8 (Encoder.byte_of_bits (Z.testbit v 6) (Z.testbit v 5)
                         (Z.testbit v 4) (Z.testbit v 3) (Z.testbit v 2)
                         (Z.testbit v 1) (Z.testbit v 0) x)) 1 =? v))
           128).
  vm_compute. reflexivity.
Qed.

Lemma third_byte_unpacked (t : Z) (z e c3 c2 c1 c0 : bool) :
  0 <= t < 2 ^ 2 ->
  let h2 := u8 (Encoder.byte_of_bits z e (Z.testbit t 1) (Z.testbit t 0)
                  c3 c2 c1 c0) in
  (shr (Z.land h2 0x40) 6 =? 0x01) = e /\ shr (Z.land h2 0x30) 4 = t.
Proof.
  intros Ht.
  assert (Hc : t = 0 \/ t = 1 \/ t = 2 \/ t = 3) by lia.
  destruct Hc as [-> | [-> | [-> | ->]]];
    destruct z, e, c3, c2, c1, c0; vm_compute; split; reflexivity.
Qed.

Lemma highNibble_unpacked (v : Z) (x3 x2 x1 x0 : bool) :
  0 <= v < 2 ^ 4 ->
  let q :=
    u8 (Encoder.byte_of_bits (Z.testbit v 3) (Z.testbit v 2)
          (Z.testbit v 1) (Z.testbit v 0) x3 x2 x1 x0) in
  shr q 4 = v /\ shr (Z.land q 0xF0) 4 = v.
Proof.
  intros Hv. cbv zeta.
  assert (H : forall v, 0 <= v < Z.of_nat 16 ->
            (fun v => allb (fun x3 => allb (fun x2 => allb (fun x1 =>
               allb (fun x0 =>
                 let q :=
                   u8 (Encoder.byte_of_bits (Z.testbit v 3)
                         (Z.testbit v 2) (Z.testbit v 1) (Z.testbit v 0)
                         x3 x2 x1 x0) in
                 (shr q 4 =? v) && (shr (Z.land q 0xF0) 4 =? v))))))
              v = true).
  { apply Zrange_forall. vm_compute. reflexivity. }
  specialize (H v ltac:(lia)). cbv beta in H.
  pose proof (allb_spec _ (allb_spec _ (allb_spec _ (allb_spec _ H x3) x2)
                             x1) x0) as E.
  cbv beta zeta in E. apply andb_true_iff in E.
  destruct E as [E1 E2]. split; apply Z.eqb_eq; assumption.
Qed.

Lemma lowNibble_unpacked (v : Z) (x3 x2 x1 x0 : bool) :
  0 <= v < 2 ^ 4 ->
  Z.land (u8 (Encoder.byte_of_bits x3 x2 x1 x0 (Z.testbit v 3) (Z.testbit v 2)
                (Z.testbit v 1) (Z.testbit v 0))) 0x0F = v.
Proof.
  intros Hv.
  assert (H : forall v, 0 <= v < Z.of_nat 16 ->
            (fun v => allb (fun x3 => allb (fun x2 => allb (fun x1 =>
               allb (fun x0 =>
                 Z.land (u8 (Encoder.byte_of_bits x3 x2 x1 x0 (Z.testbit v 3)
                               (Z.testbit v 2) (Z.testbit v 1)
                               (Z.testbit v 0))) 0x0F =? v)))))
              v = true).
  { apply Zrange_forall. vm_compute. reflexivity. }
  specialize (H v ltac:(lia)). cbv beta in H.
  pose proof (allb_spec _ (allb_spec _ (allb_spec _ (allb_spec _ H x3) x2)
                             x1) x0) as E.
  cbv beta in E. apply Z.eqb_eq. exact E.
Qed.

Lemma last_byte_unpacked (i l : Z) (n1 n0 : bool) :
  0 <= i < 2 ^ 3 -> 0 <= l < 2 ^ 3 ->
  let q := u8 (Encoder.byte_of_bits n1 n0 (Z.testbit i 2) (Z.testbit i 1)
                 (Z.testbit i 0) (Z.testbit l 2) (Z.testbit l 1)
                 (Z.testbit l 0)) in
  shr (Z.land q 0x38) 3 = i /\ Z.land q 0x7 = l.
Proof.
  intros Hi Hl. cbv zeta.
  assert (H : forall i, 0 <= i < Z.of_nat 8 ->
            (fun i => forallb (fun l => allb (fun n1 => allb (fun n0 =>
               let q := u8 (Encoder.byte_of_bits n1 n0 (Z.testbit i 2)
                              (Z.testbit i 1) (Z.testbit i 0)
                              (Z.testbit l 2) (Z.testbit l 1)
                              (Z.testbit l 0)) in
               (shr (Z.land q 0x38) 3 =? i) && (Z.land q 0x7 =? l))))
               (map Z.of_nat (seq 0 8))) i = true).
  { apply Zrange_forall. vm_compute. reflexivity. }
  specialize (H i ltac:(lia)). cbv beta in H.
  pose proof (Zrange_forall _ 8 H l ltac:(lia)) as E. cbv beta in E.
  pose proof (allb_spec _ (allb_spec _ E n1) n0) as E'.
  cbv beta zeta in E'. apply andb_true_iff in E'.
  destruct E' as [E1 E2]. split; apply Z.eqb_eq; assumption.
Qed.

(** X13.  The header round trip.  For a frame whose [MessageType] and
    selector fit their widths, [DeserializeFrameStart] on the three bytes
    the encoder packs (and anything behind them) returns those bytes and
    gives back [MessageType], [EAF] and the selector; [PayloadLength]
    comes out 0 whatever was packed; and the call either succeeds with
    the reader past the header or fails with the frame-CRC error with the
    reader untouched. *)
Theorem header_round_trip (f g : Frame) (rest : list byte) :
  0 <= MessageType f < 2 ^ 7 ->
  0 <= FrameMessageCRCType f < 2 ^ 2 ->
  let '(frameHeader, err, f', r') :=
    DeserializeFrameStart (Encoder.encodeFrameStart f ++ rest) g in
  frameHeader = Encoder.encodeFrameStart f /\
  MessageType f' = MessageType f /\
  EAF f' = EAF f /\
  FrameMessageCRCType f' = FrameMessageCRCType f /\
  PayloadLength f' = 0 /\
  ((err = None /\ r' = rest) \/
   (err = Some (errors_New "frame CRC did not match calculated value") /\
    r' = Encoder.encodeFrameStart f ++ rest)).
Proof.
  intros Hm Ht.
  destruct (encodeFrameStart_bytes f) as (y & z & c3 & c2 & c1 & c0 & ->).
  cbn [app]. rewrite DeserializeFrameStart_cons. cbv zeta.
  pose proof (messageType_unpacked (MessageType f)
                (Z.testbit (PayloadLength f) 9) Hm) as E1.
  pose proof (third_byte_unpacked (FrameMessageCRCType f)
                z (EAF f) c3 c2 c1 c0 Ht) as E2.
  cbv zeta in E2. destruct E2 as [E2 E3].
  match goal with
  | |- context [if ?x =? ?y then _ else _] => destruct (x =? y)
  end; frame_cbn; rewrite E1, E2, E3; repeat split; auto.
Qed.

Lemma header_round_trip_witness :
  0 <= MessageType sampleFields < 2 ^ 7 /\
  0 <= FrameMessageCRCType sampleFields < 2 ^ 2 /\
  MessageType
    (snd (fst (DeserializeFrameStart
                 (Encoder.encodeFrameStart sampleFields ++ [xaa]) zeroFrame)))
  = 5.
Proof.
  assert (H1 : 0 <= MessageType sampleFields < 2 ^ 7)
    by (vm_compute; split; [discriminate | reflexivity]).
  assert (H2 : 0 <= FrameMessageCRCType sampleFields < 2 ^ 2)
    by (vm_compute; split; [discriminate | reflexivity]).
  split; [exact H1 |]. split; [exact H2 |].
  pose proof (header_round_trip sampleFields zeroFrame [xaa] H1 H2) as M.
  destruct (DeserializeFrameStart _ _) as [[[h e] f'] r'].
  destruct M as (_ & M & _). exact M.
Defined.

(** X14.  The round trip of the payload description block, for a frame
    with [TimeTagType] unset whose fields fit their widths:
    [DeserializePayloadDescriptionBlock] on the six bytes the encoder
    packs, followed by at least two more bytes, succeeds, returns the six
    bytes, leaves the reader just behind them and gives back
    [MessageSubtype], [SolutionProcessorID], [EncryptionID],
    [AuthenticationIndicator] and [EmbeddedAuthenticationLength];
    [TimeTag] comes out 0 whatever was packed. *)
Theorem payload_description_round_trip
    (f g : Frame) (p6 p7 : byte) (rest : list byte) :
  TimeTagType f = false ->
  0 <= MessageSubtype f < 2 ^ 4 ->
  0 <= SolutionProcessorID f < 2 ^ 4 ->
  0 <= EncryptionID f < 2 ^ 4 ->
  0 <= AuthenticationIndicator f < 2 ^ 3 ->
  0 <= EmbeddedAuthenticationLength f < 2 ^ 3 ->
  let '(parsedBytes, err, f', r') :=
    DeserializePayloadDescriptionBlock
      (Encoder.encodePayloadDescriptionBlock f ++ p6 :: p7 :: rest) g in
  err = None /\
  parsedBytes = Encoder.encodePayloadDescriptionBlock f /\
  r' = p6 :: p7 :: rest /\
  MessageSubtype f' = MessageSubtype f /\
  SolutionProcessorID f' = SolutionProcessorID f /\
  EncryptionID f' = EncryptionID f /\
  AuthenticationIndicator f' = AuthenticationIndicator f /\
  EmbeddedAuthenticationLength f' = EmbeddedAuthenticationLength f /\
  TimeTagType f' = false /\ TimeTag f' = 0.
Proof.
  intros Hf Hs Hp He Hi Hl.
  destruct (encodePayloadDescriptionBlock_bytes f Hf)
    as (y & z & t2 & t1 & t0 & s3 & s2 & s1 & s0 & e3 & e2 & e1 & e0 &
        n1 & n0 & ->).
  cbn [app]. rewrite DeserializePayloadDescriptionBlock_cons.
  frame_cbn.
  pose proof (highNibble_unpacked (MessageSubtype f) false t2 t1 t0 Hs)
    as E1.
  pose proof (lowNibble_unpacked (SolutionProcessorID f) s3 s2 s1 s0 Hp)
    as E2.
  pose proof (highNibble_unpacked (EncryptionID f) e3 e2 e1 e0 He) as E3.
  pose proof (last_byte_unpacked (AuthenticationIndicator f)
                (EmbeddedAuthenticationLength f) n1 n0 Hi Hl) as E4.
  cbv zeta in E1, E3, E4.
  destruct E1 as [E1 _]. destruct E3 as [_ E3]. destruct E4 as [E4 E5].
  rewrite E1, E2, E3, E4, E5. repeat split.
Qed.

Lemma payload_description_round_trip_witness :
  TimeTagType sampleFields = false /\
  EncryptionID
    (snd (fst (DeserializePayloadDescriptionBlock
                 (Encoder.encodePayloadDescriptionBlock sampleFields
                  ++ [x01; x02]) zeroFrame)))
  = 6.
Proof.
  assert (Hf : TimeTagType sampleFields = false) by reflexivity.
  split; [exact Hf |].
  assert (H1 : 0 <= MessageSubtype sampleFields < 2 ^ 4)
    by (vm_compute; split; [discriminate | reflexivity]).
  assert (H2 : 0 <= SolutionProcessorID sampleFields < 2 ^ 4)
    by (vm_compute; split; [discriminate | reflexivity]).
  assert (H3 : 0 <= EncryptionID sampleFields < 2 ^ 4)
    by (vm_compute; split; [discriminate | reflexivity]).
  assert (H4 : 0 <= AuthenticationIndicator sampleFields < 2 ^ 3)
    by (vm_compute; split; [discriminate | reflexivity]).
  assert (H5 : 0 <= EmbeddedAuthenticationLength sampleFields < 2 ^ 3)
    by (vm_compute; split; [discriminate | reflexivity]).
  pose proof (payload_description_round_trip sampleFields zeroFrame
                x01 x02 [] Hf H1 H2 H3 H4 H5) as M.
  destruct (DeserializePayloadDescriptionBlock _ _) as [[[pb e] f'] r'].
  destruct M as (_ & _ & _ & _ & _ & M & _). exact M.
Defined.

(** X15.  [DeserializeFrameStart] consumes three bytes or none: either
    it returns no error, and the slice returned is the three bytes the
    reader has moved over, or it returns an error and the reader is where
    it was. *)
Theorem frame_start_three_or_nothing (r : bufio.Reader) (f : Frame) :
  let '(frameHeader, err, _, r') := DeserializeFrameStart r f in
  (err = None /\ r = frameHeader ++ r' /\ length frameHeader = 3%nat) \/
  (err <> None /\ r' = r).
Proof.
  destruct (three_or_short r) as [Hs | (a & b & c & rest & ->)].
  - rewrite DeserializeFrameStart_short by exact Hs.
    right. split; [discriminate | reflexivity].
  - rewrite DeserializeFrameStart_cons. cbv zeta.
    destruct (wrap 8 (crc.CalculateCRC FrameHash [a; b])
              =? Z.land (u8 c) 0x0F).
    + left. repeat split.
    + right. split; [discriminate | reflexivity].
Qed.

(** X16.  The end-of-stream error is confined to short streams: on a
    stream of 18 bytes or more [DeserializeFrame] never returns
    [io.EOF]. *)
Theorem long_stream_never_eof (r : bufio.Reader) :
  (18 <= length r)%nat ->
  let '(_, err, _) := DeserializeFrame r in err <> Some io_EOF.
Proof.
  pose proof (DeserializeFrame_outcome r) as H.
  destruct (DeserializeFrame r) as [[fr err] r'].
  destruct H; intros Hlen; try discriminate;
    try (cbn [length] in Hlen; lia).
  - pose proof (authLength_range p5).
    match goal with Hs : skipn _ _ = [] |- _ =>
      apply skipn_nil_length in Hs end.
    cbn [length] in Hlen. lia.
  - match goal with
    | |- (if ?x then _ else _) <> _ => destruct x; discriminate
    end.
Qed.

Lemma long_stream_never_eof_witness :
  (18 <= length (minimalFrame ++ minimalFrame))%nat /\
  snd (fst (DeserializeFrame (minimalFrame ++ minimalFrame)))
  <> Some io_EOF.
Proof.
  assert (H : (18 <= length (minimalFrame ++ minimalFrame))%nat)
    by (cbn; lia).
  split; [exact H |].
  pose proof (long_stream_never_eof (minimalFrame ++ minimalFrame) H) as M.
  destruct (DeserializeFrame (minimalFrame ++ minimalFrame))
    as [[fr e] r'].
  exact M.
Defined.
